(** * Disaster-response coordination service (main5.py)

    A shallow embedding of the Flask application: the SQLite database is a
    record of finite maps from rowid to row, a request carries the method, the
    form, the session user and the clock reading, and every view function is a
    function from the world before the request to a response and the world
    after it.  The messaging provider, the float type, SHA-256 and SQLite's
    text-to-rowid coercion are the environment of the program ([Env]).  Of a
    template, what can make its rendering raise is kept: the layout's use of
    the session user and the formatting of the coordinates of the incidents
    that a page lists. *)

From Stdlib Require Import ZArith Lia Ascii.
From stdpp Require Import base option list sorting gmap strings pretty.

Local Open Scope Z_scope.

(** ** Values that leave the program *)

(** A message handed to [twilio_client.messages.create]. *)
Record sms := Sms { sms_body : string; sms_from : string; sms_to : string }.

(** What [messages.create] does: it returns a message object with a [sid], or
    raises; [send_sms_alert] catches every exception and keeps its text. *)
Inductive api_result :=
| Created (sid : string)
| ApiError (text : string).

(** ** The environment of the program *)

Class Env := {
  (** Python's [float] values, [float(s)] on a string ([None]: ValueError),
      [math.isnan], a float literal [m * 10^e], and the format specification
      [.4f] (of an f-string and of the [%] operator alike). *)
  float : Type;
  py_float : string → option float;
  float_isnan : float → bool;
  float_dec : Z → Z → float;
  fmt4f : float → string;
  (** [sha256(s.encode()).hexdigest()] *)
  sha256_hex : string → string;
  (** SQLite compares a bound TEXT parameter with an INTEGER PRIMARY KEY
      column after numeric coercion: the rowid the text can be equal to, if
      any.  The same coercion stores the text in an INTEGER column. *)
  sql_rowid : string → option Z;
  (** Module globals set from the process environment at start-up. *)
  twilio_client : bool;
  TWILIO_WHATSAPP_FROM : string;
  TWILIO_SMS_FROM : string;
  (** The provider's answer to a call, given the calls made before it. *)
  messages_create : list sms → sms → api_result
}.

(** ** Python helpers *)

Module Py.

(** [str.isspace] on an ASCII character: TAB..CR, FS..US and the space. *)
Definition isspace (a : ascii) : bool :=
  let n := nat_of_ascii a in
  ((9 <=? n)%nat && (n <=? 13)%nat) || ((28 <=? n)%nat && (n <=? 32)%nat).

Fixpoint lstrip (s : string) : string :=
  match s with
  | String a s' => if isspace a then lstrip s' else s
  | EmptyString => EmptyString
  end.

Definition rstrip (s : string) : string := String.rev (lstrip (String.rev s)).

(** [s.strip()] *)
Definition strip (s : string) : string := rstrip (lstrip s).

(** Truthiness of a string: [not s] holds of the empty string only. *)
Definition truthy (s : string) : bool := negb (String.eqb s "").

(** [s.startswith(p)] *)
Definition startswith (p s : string) : bool := String.prefix p s.

(** [str(x)] of a value that may be [None]. *)
Definition str_of (o : option string) : string := default "None" o.

(** The exceptions that leave a view function; [UndefinedError] is
    [jinja2.exceptions.UndefinedError]. *)
Inductive exn := ValueError | TypeError | OverflowError | KeyError | UndefinedError.

(** The whitespace that [int] skips around an ASCII literal: TAB..CR and
    the space ([Py_ISSPACE]); unlike [str.strip] it keeps FS..US. *)
Definition isspace_int (a : ascii) : bool :=
  let n := nat_of_ascii a in
  ((9 <=? n)%nat && (n <=? 13)%nat) || (n =? 32)%nat.

Fixpoint lstrip_int (s : string) : string :=
  match s with
  | String a s' => if isspace_int a then lstrip_int s' else s
  | EmptyString => EmptyString
  end.

Definition strip_int (s : string) : string :=
  String.rev (lstrip_int (String.rev (lstrip_int s))).

Definition digit_of (a : ascii) : option Z :=
  let n := nat_of_ascii a in
  if (48 <=? n)%nat && (n <=? 57)%nat then Some (Z.of_nat (n - 48)) else None.

(** The digits of a decimal literal; a single underscore may separate two
    digits.  [after_digit] tells whether the previous character was one. *)
Fixpoint int_digits (s : string) (acc : Z) (after_digit : bool) : option Z :=
  match s with
  | EmptyString => if after_digit then Some acc else None
  | String a s' =>
      match digit_of a with
      | Some d => int_digits s' (10 * acc + d) true
      | None =>
          if Ascii.eqb a "_"%char && after_digit then int_digits s' acc false
          else None
      end
  end.

(** [int(s)] on ASCII text: an optional sign and a decimal literal, with
    whitespace around them. *)
Definition int_of_str (s : string) : option Z :=
  match strip_int s with
  | String "-"%char s' => Z.opp <$> int_digits s' 0 false
  | String "+"%char s' => int_digits s' 0 false
  | s' => int_digits s' 0 false
  end.

(** [int(x)] where [x] is the result of [request.form.get]: [int(None)]
    raises TypeError and a string that is no decimal literal ValueError. *)
Definition int (x : option string) : exn + Z :=
  match x with
  | None => inl TypeError
  | Some s => from_option inr (inl ValueError) (int_of_str s)
  end.

(** [float(x)] on the result of [request.form.get]. *)
Definition float `{Env} (x : option string) : exn + float :=
  match x with
  | None => inl TypeError
  | Some s => from_option inr (inl ValueError) (py_float s)
  end.

End Py.

(** ** The database *)

(** Rows, one record per table of [init_db]; the rowid is the key of the
    table.  Nullable TEXT columns that the code reads as such are options,
    and so are [lat] and [lng] of an incident, which [report_incident] can
    leave NULL.
    [reported_at] and [created_at] hold the text of
    [strftime("%Y-%m-%d %H:%M:%S")], modelled by the second it denotes. *)

Record user := User {
  username : string;
  password_hash : string;
  role : string;
  contact : option string
}.

Record incident `{Env} := Incident {
  inc_type : option string;
  inc_severity : Z;
  inc_lat : option float;
  inc_lng : option float;
  inc_status : string;
  reported_at : Z
}.

Record volunteer `{Env} := Volunteer {
  vol_name : string;
  vol_phone : option string;
  vol_lat : float;
  vol_lng : float;
  available : Z
}.

Record resource := Resource {
  res_type : option string;
  res_qty : option string;
  res_location : option string
}.

(** hospitals and shelters have the same columns *)
Record place `{Env} := Place {
  pl_name : string;
  pl_lat : float;
  pl_lng : float;
  capacity : Z
}.

Record task := Task {
  incident_id : Z;
  volunteer_id : Z;
  resource_id : option Z;
  task_status : option string;
  created_at : Z
}.

Record store `{Env} := Store {
  users : gmap Z user;
  incidents : gmap Z incident;
  volunteers : gmap Z volunteer;
  resources : gmap Z resource;
  hospitals : gmap Z place;
  shelters : gmap Z place;
  tasks : gmap Z task
}.

Arguments Incident {_} _ _ _ _ _ _.
Arguments Volunteer {_} _ _ _ _ _.
Arguments Place {_} _ _ _ _.
Arguments Store {_} _ _ _ _ _ _ _.

Module Sql.

(** The largest rowid in use. *)
Definition max_rowid {A} (t : gmap Z A) : option Z :=
  foldr (λ kv acc, Some (from_option (Z.max kv.1) kv.1 acc)) None
        (map_to_list t).

(** INSERT without an explicit id into a table with INTEGER PRIMARY KEY:
    one more than the largest rowid in use, 1 in an empty table (the search
    for an unused rowid once the largest one is 2^63-1 is left out). *)
Definition next_rowid {A} (t : gmap Z A) : Z :=
  from_option Z.succ 1 (max_rowid t).

Definition insert_row {A} (row : A) (t : gmap Z A) : gmap Z A :=
  <[next_rowid t := row]> t.

Definition insert_rows {A} (rows : list A) (t : gmap Z A) : gmap Z A :=
  foldl (λ t row, insert_row row t) t rows.

Definition rowid_le {A} (a b : Z * A) : Prop := a.1 ≤ b.1.

#[global] Instance rowid_le_dec {A} : RelDecision (@rowid_le A).
Proof. intros a b. unfold rowid_le. apply _. Defined.

(** The rows of a SELECT without ORDER BY, in rowid order. *)
Definition rows {A} (t : gmap Z A) : list (Z * A) :=
  merge_sort rowid_le (map_to_list t).

(** [WHERE id=?] with the text of a form field (NULL matches nothing). *)
Definition by_text_id `{Env} {A} (x : option string) (t : gmap Z A) : option (Z * A) :=
  match x with
  | Some s =>
      match sql_rowid s with
      | Some i => pair i <$> t !! i
      | None => None
      end
  | None => None
  end.

(** The range of an SQLite INTEGER; the sqlite3 module raises
    OverflowError when asked to bind a Python int outside it. *)
Definition fits_int64 (z : Z) : bool :=
  (- 2 ^ 63 <=? z) && (z <? 2 ^ 63).

(** A float bound to a parameter of an INSERT: SQLite stores a NaN as
    NULL, and every other float (the infinities too) as it is. *)
Definition real `{Env} (x : float) : option float :=
  if float_isnan x then None else Some x.

End Sql.

(** Functional updates of one table of the store. *)

Definition with_users `{Env} (f : gmap Z user → gmap Z user) (s : store) : store :=
  Store (f (users s)) (incidents s) (volunteers s) (resources s)
        (hospitals s) (shelters s) (tasks s).

Definition with_incidents `{Env} (f : gmap Z incident → gmap Z incident) (s : store) : store :=
  Store (users s) (f (incidents s)) (volunteers s) (resources s)
        (hospitals s) (shelters s) (tasks s).

Definition with_volunteers `{Env} (f : gmap Z volunteer → gmap Z volunteer) (s : store) : store :=
  Store (users s) (incidents s) (f (volunteers s)) (resources s)
        (hospitals s) (shelters s) (tasks s).

Definition with_resources `{Env} (f : gmap Z resource → gmap Z resource) (s : store) : store :=
  Store (users s) (incidents s) (volunteers s) (f (resources s))
        (hospitals s) (shelters s) (tasks s).

Definition with_hospitals `{Env} (f : gmap Z place → gmap Z place) (s : store) : store :=
  Store (users s) (incidents s) (volunteers s) (resources s)
        (f (hospitals s)) (shelters s) (tasks s).

Definition with_shelters `{Env} (f : gmap Z place → gmap Z place) (s : store) : store :=
  Store (users s) (incidents s) (volunteers s) (resources s)
        (hospitals s) (f (shelters s)) (tasks s).

Definition with_tasks `{Env} (f : gmap Z task → gmap Z task) (s : store) : store :=
  Store (users s) (incidents s) (volunteers s) (resources s)
        (hospitals s) (shelters s) (f (tasks s)).

Definition set_inc_status `{Env} (st : string) (i : incident) : incident :=
  Incident (inc_type i) (inc_severity i) (inc_lat i) (inc_lng i) st (reported_at i).

Definition set_task_status (st : option string) (t : task) : task :=
  Task (incident_id t) (volunteer_id t) (resource_id t) st (created_at t).

(** [datetime.now().strftime("%Y-%m-%d %H:%M:%S")]: the clock is read in
    microseconds and the text keeps the whole seconds. *)
Definition strftime_seconds (clock : Z) : Z := clock `div` 1000000.

(** ** init_db *)

(** A table is seeded when [SELECT COUNT( * )] finds it empty. *)
Definition seed {A} (rows : list A) (t : gmap Z A) : gmap Z A :=
  if decide (size t = 0%nat) then Sql.insert_rows rows t else t.

Definition seed_users `{Env} : list user :=
  [ User "admin" (sha256_hex "admin123") "admin" (Some "+1234567890");
    User "reporter1" (sha256_hex "reporter123") "reporter" (Some "+1234567891");
    User "volunteer1" (sha256_hex "volunteer123") "volunteer" (Some "+1234567892");
    User "viewer1" (sha256_hex "viewer123") "viewer" (Some "");
    User "coordinator1" (sha256_hex "coord123") "coordinator" (Some "+1234567893") ].

Definition seed_hospitals `{Env} : list place :=
  [ Place "AIIMS Rishikesh" (float_dec 30153 (-3)) (float_dec 78292 (-3)) 800;
    Place "KGMU Lucknow" (float_dec 26872 (-3)) (float_dec 80934 (-3)) 1200;
    Place "Apollo Delhi" (float_dec 28544 (-3)) (float_dec 77281 (-3)) 900;
    Place "CMC Vellore" (float_dec 12926 (-3)) (float_dec 79133 (-3)) 1000;
    Place "PGIMER Chandigarh" (float_dec 30764 (-3)) (float_dec 76773 (-3)) 1100 ].

Definition seed_shelters `{Env} : list place :=
  [ Place "Dehradun Stadium" (float_dec 30316 (-3)) (float_dec 78032 (-3)) 2000;
    Place "Lucknow Expo" (float_dec 26846 (-3)) (float_dec 80946 (-3)) 1500;
    Place "Noida Indoor" (float_dec 28535 (-3)) (float_dec 77391 (-3)) 1800;
    Place "Mumbai NSS Hall" (float_dec 19076 (-3)) (float_dec 72877 (-3)) 2200 ].

Definition seed_volunteers `{Env} : list volunteer :=
  [ Volunteer "Aarav" (Some "+919000000011") (float_dec 2861 (-2)) (float_dec 7721 (-2)) 1;
    Volunteer "Diya" (Some "+919000000012") (float_dec 2685 (-2)) (float_dec 8095 (-2)) 1;
    Volunteer "Kabir" (Some "+919000000013") (float_dec 3032 (-2)) (float_dec 7803 (-2)) 1;
    Volunteer "Meera" (Some "+919000000014") (float_dec 1908 (-2)) (float_dec 7288 (-2)) 1 ].

Definition seed_incidents `{Env} (now : Z) : list incident :=
  [ Incident (Some "Debris Removal") 4
             (Some (float_dec 2862 (-2))) (Some (float_dec 7722 (-2))) "open" now;
    Incident (Some "Medical Aid") 5
             (Some (float_dec 2686 (-2))) (Some (float_dec 8096 (-2))) "open" now;
    Incident (Some "Shelter Request") 3
             (Some (float_dec 3033 (-2))) (Some (float_dec 7804 (-2))) "closed" now;
    Incident (Some "Search & Rescue") 5
             (Some (float_dec 2853 (-2))) (Some (float_dec 7739 (-2))) "in_progress" now;
    Incident (Some "Resource Request") 2
             (Some (float_dec 1909 (-2))) (Some (float_dec 7289 (-2))) "open" now ].

Definition seed_resources : list resource :=
  [ Resource (Some "Earthmover") (Some "2") (Some "Central Warehouse");
    Resource (Some "Medical Kits") (Some "50") (Some "Mobile Unit 1");
    Resource (Some "Food Kits") (Some "200") (Some "Central Warehouse") ].

(** [init_db]: the tables exist from then on, and each empty table among
    users, hospitals, shelters, volunteers, incidents and resources gets its
    default rows.  [clock] is the reading of [datetime.now()]. *)
Definition init_db `{Env} (clock : Z) (s : store) : store :=
  Store (seed seed_users (users s))
        (seed (seed_incidents (strftime_seconds clock)) (incidents s))
        (seed seed_volunteers (volunteers s))
        (seed seed_resources (resources s))
        (seed seed_hospitals (hospitals s))
        (seed seed_shelters (shelters s))
        (tasks s).

(** The database file before the first start. *)
Definition empty_store `{Env} : store := Store ∅ ∅ ∅ ∅ ∅ ∅ ∅.

(** ** Requests, responses and the world *)

Inductive http_method := GET | POST.

(** [session["user"]], set by [login] from the user's row. *)
Record session_user := SessionUser {
  su_id : Z;
  su_username : string;
  su_role : string;
  su_contact : option string
}.

Record request := Request {
  method : http_method;
  form : gmap string string;
  session : option session_user;
  (** the reading of [datetime.now()], in microseconds *)
  clock : Z
}.

(** What a view function returns.  Of the template context only
    [message_sent] is kept; an exception that leaves the view function, while
    it runs or while its template is rendered, is answered by Flask with
    HTTP 500. *)
Inductive response :=
| Redirect (endpoint : string)
| Abort (status : Z)
| Render (template : string) (message_sent : option (string * string))
| Unhandled (e : Py.exn).

(** The database and the calls made to the messaging provider so far. *)
Record world `{Env} := World {
  db : store;
  outbox : list sms
}.

Arguments World {_} _ _.

Definition handler `{Env} : Type := world → request → response * world.

(** [request.form.get(k)] and [request.form.get(k, "")] *)
Definition form_get (req : request) (k : string) : option string := form req !! k.
Definition form_get_or_empty (req : request) (k : string) : string :=
  default "" (form req !! k).

(** ** Helpers *)

Definition logged_in (req : request) : bool := bool_decide (is_Some (session req)).

Definition send_sms_alert `{Env} (phone_number message : string) (use_whatsapp : bool)
    (out : list sms) : (bool * string) * list sms :=
  if negb twilio_client then ((false, "Twilio not configured"), out)
  else
    let phone_number :=
      if use_whatsapp && negb (Py.startswith "whatsapp:" phone_number)
      then "whatsapp:" +:+ phone_number else phone_number in
    let from_number := if use_whatsapp then TWILIO_WHATSAPP_FROM else TWILIO_SMS_FROM in
    if negb (Py.truthy from_number) then ((false, "No sender number configured"), out)
    else
      let m := Sms message from_number phone_number in
      let alert_type := if use_whatsapp then "WhatsApp" else "SMS" in
      match messages_create out m with
      | Created _ => ((true, alert_type +:+ " sent successfully"), out ++ [m])
      | ApiError e => ((false, "Error sending alert: " +:+ e), out ++ [m])
      end.

(** The loop of [alerts] over the selected phone numbers: the two counters
    and the provider calls. *)
Fixpoint send_each `{Env} (phones : list string) (message : string) (use_whatsapp : bool)
    (sent_count failed_count : nat) (out : list sms) : (nat * nat) * list sms :=
  match phones with
  | [] => ((sent_count, failed_count), out)
  | p :: phones' =>
      let '((success, _), out') := send_sms_alert p message use_whatsapp out in
      if success
      then send_each phones' message use_whatsapp (S sent_count) failed_count out'
      else send_each phones' message use_whatsapp sent_count (S failed_count) out'
  end.

(** ** Decorators for access control *)

Definition login_required `{Env} (f : handler) : handler := λ w req,
  if negb (logged_in req) then (Redirect "login", w) else f w req.

Definition role_in (roles : list string) (req : request) : bool :=
  match session req with
  | Some u => bool_decide (su_role u ∈ roles)
  | None => false
  end.

Definition roles_required `{Env} (roles : list string) (f : handler) : handler := λ w req,
  if negb (logged_in req) || negb (role_in roles req) then (Abort 403, w) else f w req.

(** ** What the pages list, and when they can be rendered *)

(** [ORDER BY created_at DESC]; rows with the same text stay in rowid
    order. *)
Definition newer (a b : Z * task) : Prop := created_at b.2 ≤ created_at a.2.

#[global] Instance newer_dec : RelDecision newer.
Proof. intros a b. unfold newer. apply _. Defined.

(** The [tasks] that [volunteer_tasks] hands to its template: the tasks
    whose volunteer_id is the id of the session user, newest first, each
    with its incident; a task whose incident is not found is left out. *)
Definition volunteer_task_list `{Env} (uid : Z) (s : store) : list (Z * task * incident) :=
  omap (λ kt, (λ inc, (kt.1, kt.2, inc)) <$> incidents s !! incident_id kt.2)
       (merge_sort newer (filter (λ kt, volunteer_id kt.2 = uid) (Sql.rows (tasks s)))).

(** [ORDER BY severity DESC] *)
Definition heavier `{Env} (a b : Z * incident) : Prop :=
  inc_severity b.2 ≤ inc_severity a.2.

#[global] Instance heavier_dec `{Env} : RelDecision heavier.
Proof. intros a b. unfold heavier. apply _. Defined.

(** [WHERE status IN ('open', 'in_progress')] *)
Definition is_active `{Env} (kv : Z * incident) : Prop :=
  inc_status kv.2 = "open" ∨ inc_status kv.2 = "in_progress".

#[global] Instance is_active_dec `{Env} (kv : Z * incident) : Decision (is_active kv).
Proof. unfold is_active. apply _. Defined.

(** The [incidents] that [assign_tasks] hands to its template. *)
Definition active_incidents `{Env} (s : store) : list (Z * incident) :=
  merge_sort heavier (filter is_active (Sql.rows (incidents s))).

(** [ORDER BY reported_at DESC]; rows with the same text are taken in rowid
    order (SQLite leaves their order open). *)
Definition later `{Env} (a b : Z * incident) : Prop := reported_at b.2 ≤ reported_at a.2.

#[global] Instance later_dec `{Env} : RelDecision later.
Proof. intros a b. unfold later. apply _. Defined.

(** The [incidents] that [dashboard] hands to its template: [LIMIT 10]. *)
Definition recent_incidents `{Env} (s : store) : list (Z * incident) :=
  take 10 (merge_sort later (Sql.rows (incidents s))).

(** The templates of the dashboard, of the assignment page and of the task
    list print ['%.4f'|format(lat)] and ['%.4f'|format(lng)] of every listed
    incident; the [%] operator raises TypeError on [None]. *)
Definition has_location `{Env} (i : incident) : bool :=
  bool_decide (is_Some (inc_lat i)) && bool_decide (is_Some (inc_lng i)).

Definition render_incidents `{Env} (template : string)
    (message_sent : option (string * string)) (listed : list incident) : response :=
  if forallb has_location listed then Render template message_sent
  else Unhandled Py.TypeError.

(** Every page but the login page extends the layout, which evaluates
    [session.user.role]: without a user in the session [session.user] is
    undefined, and an attribute of an undefined value raises UndefinedError.
    The view functions behind [login_required] render with a user in the
    session; [register] runs without one as well. *)
Definition render_layout (req : request) (template : string)
    (message_sent : option (string * string)) : response :=
  match session req with
  | Some _ => Render template message_sent
  | None => Unhandled Py.UndefinedError
  end.

(** ** View functions *)

(** [INSERT INTO users]: the UNIQUE constraint on [username] raises
    [sqlite3.IntegrityError] ([None]) when a row has that username. *)
Definition insert_user (u : user) (t : gmap Z user) : option (gmap Z user) :=
  if decide (map_Exists (λ _ u', username u' = username u) t) then None
  else Some (Sql.insert_row u t).

Definition register `{Env} : handler := λ w req,
  match method req with
  | POST =>
      let username := Py.strip (form_get_or_empty req "username") in
      let password := Py.strip (form_get_or_empty req "password") in
      let role := Py.strip (form_get_or_empty req "role") in
      let contact := Py.strip (form_get_or_empty req "contact") in
      if negb (Py.truthy username) || negb (Py.truthy password) || negb (Py.truthy role)
      then (render_layout req "register"
              (Some ("error", "All fields except contact are required")), w)
      else
        match insert_user (User username (sha256_hex password) role (Some contact))
                          (users (db w)) with
        | Some users' => (Redirect "login", World (with_users (λ _, users') (db w)) (outbox w))
        | None => (render_layout req "register" (Some ("error", "Username already exists")), w)
        end
  | GET => (render_layout req "register" None, w)
  end.

Definition dashboard `{Env} : handler := λ w req,
  (render_incidents "dashboard" None (snd <$> recent_incidents (db w)), w).

(** [SELECT phone FROM volunteers WHERE phone IS NOT NULL AND phone != ''] *)
Definition volunteer_phones `{Env} (s : store) : list string :=
  omap (λ kv, match vol_phone kv.2 with
              | Some p => if Py.truthy p then Some p else None
              | None => None
              end) (Sql.rows (volunteers s)).

(** [SELECT contact FROM users WHERE contact IS NOT NULL AND contact != ''] *)
Definition user_contacts `{Env} (s : store) : list string :=
  omap (λ kv, match contact kv.2 with
              | Some p => if Py.truthy p then Some p else None
              | None => None
              end) (Sql.rows (users s)).

(** The message of the all_volunteers branch from the two counters and the
    number of selected rows. *)
Definition all_volunteers_message (sent_count failed_count n : nat) : string * string :=
  if bool_decide (0 < sent_count)%nat then
    ("success",
     ("Alert sent to " +:+ pretty sent_count +:+ " volunteers") +:+
     (if bool_decide (0 < failed_count)%nat
      then " (" +:+ pretty failed_count +:+ " failed)" else ""))
  else ("error", "Failed to send alerts to all " +:+ pretty n +:+ " volunteers").

Definition all_users_message (sent_count failed_count : nat) : string * string :=
  ("success",
   ("Alert sent to " +:+ pretty sent_count +:+ " users") +:+
   (if bool_decide (0 < failed_count)%nat
    then " (" +:+ pretty failed_count +:+ " failed)" else "")).

Definition result_message (r : bool * string) : string * string :=
  (if r.1 then "success" else "error", r.2).

Definition alerts `{Env} : handler := λ w req,
  match method req with
  | POST =>
      let recipient_type := form_get req "recipient_type" in
      let phone := Py.strip (form_get_or_empty req "phone") in
      let message := Py.strip (form_get_or_empty req "message") in
      if negb (Py.truthy message)
      then (Render "alerts" (Some ("error", "Message cannot be empty")), w)
      else if negb twilio_client
      then (Render "alerts" (Some ("warning", "Twilio not configured. Alert simulation: would have sent to specified recipients.")), w)
      else if bool_decide (recipient_type = Some "volunteer") && Py.truthy phone then
        let '(r, out) := send_sms_alert phone message true (outbox w) in
        (Render "alerts" (Some (result_message r)), World (db w) out)
      else if bool_decide (recipient_type = Some "phone_number") && Py.truthy phone then
        let '(r, out) := send_sms_alert phone message false (outbox w) in
        (Render "alerts" (Some (result_message r)), World (db w) out)
      else if bool_decide (recipient_type = Some "all_volunteers") then
        let volunteers := volunteer_phones (db w) in
        match volunteers with
        | [] => (Render "alerts" (Some ("error", "No volunteers with phone numbers found")), w)
        | _ =>
            let '((sent_count, failed_count), out) :=
              send_each volunteers message true 0 0 (outbox w) in
            (Render "alerts"
               (Some (all_volunteers_message sent_count failed_count (length volunteers))),
             World (db w) out)
        end
      else if bool_decide (recipient_type = Some "all_users") then
        let users := user_contacts (db w) in
        match users with
        | [] => (Render "alerts" (Some ("error", "No users with contact numbers found")), w)
        | _ =>
            let '((sent_count, failed_count), out) :=
              send_each users message false 0 0 (outbox w) in
            (Render "alerts" (Some (all_users_message sent_count failed_count)),
             World (db w) out)
        end
      else (Render "alerts" None, w)
  | GET => (Render "alerts" None, w)
  end.

Definition report_incident `{Env} : handler := λ w req,
  match method req with
  | POST =>
      let incident_type := form_get req "type" in
      match Py.int (form_get req "severity") with
      | inl e => (Unhandled e, w)
      | inr severity =>
          match Py.float (form_get req "lat") with
          | inl e => (Unhandled e, w)
          | inr lat =>
              match Py.float (form_get req "lng") with
              | inl e => (Unhandled e, w)
              | inr lng =>
                  if negb (Sql.fits_int64 severity) then (Unhandled Py.OverflowError, w)
                  else
                    let row := Incident incident_type severity (Sql.real lat) (Sql.real lng)
                                        "open" (strftime_seconds (clock req)) in
                    (Render "report_incident"
                       (Some ("success", "Incident reported successfully!")),
                     World (with_incidents (Sql.insert_row row) (db w)) (outbox w))
              end
          end
      end
  | GET => (Render "report_incident" None, w)
  end.

(** The text sent to the volunteer of a new task, an f-string:
    [{incident[3]:.4f}] raises TypeError ([None]) when lat or lng of the
    incident is NULL. *)
Definition alert_msg `{Env} (incident_id : option string) (i : incident) : option string :=
  match inc_lat i, inc_lng i with
  | Some lat, Some lng =>
      Some ("New Task Assigned! Incident ID: " +:+ Py.str_of incident_id +:+
            ". Type: " +:+ Py.str_of (inc_type i) +:+
            ". Location: " +:+ fmt4f lat +:+ ", " +:+ fmt4f lng +:+
            ". Please check the app for details.")
  | _, _ => None
  end.

(** [str(e)] of the TypeError that the f-string raises. *)
Definition FORMAT_NONE : string :=
  "unsupported format string passed to NoneType.__format__".

(** Under [try], the INSERT and the UPDATE are committed first; of what
    follows only the f-string can raise ([send_sms_alert] catches its own
    exceptions), and [except] then rolls nothing back, makes no provider call
    and sets the error message: [alert] is [message_sent] and the provider
    calls after the [try] statement.  The page lists the open and in-progress
    incidents whatever the method and the outcome. *)
Definition assign_tasks `{Env} : handler := λ w req,
  match method req with
  | POST =>
      let incident_id := form_get req "incident_id" in
      let volunteer_id := form_get req "volunteer_id" in
      match Sql.by_text_id incident_id (incidents (db w)),
            Sql.by_text_id volunteer_id (volunteers (db w)) with
      | Some (i, incident), Some (v, volunteer) =>
          let row := Task i v None (Some "assigned") (strftime_seconds (clock req)) in
          let db1 := with_tasks (Sql.insert_row row) (db w) in
          let db2 := with_incidents (alter (set_inc_status "in_progress") i) db1 in
          let assigned :=
            ("success",
             "Incident #" +:+ Py.str_of incident_id +:+
             " assigned to " +:+ vol_name volunteer +:+ ".") in
          let alert :=
            match vol_phone volunteer with
            | Some phone =>
                if twilio_client && Py.truthy phone
                then
                  match alert_msg incident_id incident with
                  | Some text =>
                      (assigned, (send_sms_alert phone text true (outbox w)).2)
                  | None =>
                      (("error", "Failed to assign task: " +:+ FORMAT_NONE), outbox w)
                  end
                else (assigned, outbox w)
            | None => (assigned, outbox w)
            end in
          (render_incidents "assign_tasks" (Some alert.1)
             (snd <$> active_incidents db2),
           World db2 alert.2)
      | _, _ =>
          (render_incidents "assign_tasks"
             (Some ("error", "Incident or Volunteer not found."))
             (snd <$> active_incidents (db w)),
           w)
      end
  | GET => (render_incidents "assign_tasks" None (snd <$> active_incidents (db w)), w)
  end.

(** [session["user"]["id"]] raises KeyError without a user in the session. *)
Definition volunteer_tasks `{Env} : handler := λ w req,
  match session req with
  | None => (Unhandled Py.KeyError, w)
  | Some u =>
      (render_incidents "volunteer_tasks" None
         (snd <$> volunteer_task_list (su_id u) (db w)),
       w)
  end.

(** [UPDATE tasks SET status=? WHERE id=? AND volunteer_id=?] *)
Definition update_own_task `{Env} (status task_id : option string) (uid : Z)
    (t : gmap Z task) : gmap Z task :=
  match task_id with
  | Some s =>
      match sql_rowid s with
      | Some k =>
          alter (λ row, if decide (volunteer_id row = uid)
                        then set_task_status status row else row) k t
      | None => t
      end
  | None => t
  end.

(** The [if]/[elif] chain on the submitted status. *)
Definition mirror_status `{Env} (status : option string) (incident_id : Z)
    (t : gmap Z incident) : gmap Z incident :=
  if bool_decide (status = Some "closed") then alter (set_inc_status "closed") incident_id t
  else if bool_decide (status = Some "in_progress")
  then alter (set_inc_status "in_progress") incident_id t
  else if bool_decide (status = Some "open") then alter (set_inc_status "open") incident_id t
  else t.

(** The first UPDATE is committed before the task is read back;
    [cur.fetchone()[0]] raises TypeError when no task has the id. *)
Definition update_task_status `{Env} : handler := λ w req,
  let task_id := form_get req "task_id" in
  let status := form_get req "status" in
  match session req with
  | None => (Unhandled Py.KeyError, w)
  | Some u =>
      let db1 := with_tasks (update_own_task status task_id (su_id u)) (db w) in
      match Sql.by_text_id task_id (tasks db1) with
      | None => (Unhandled Py.TypeError, World db1 (outbox w))
      | Some (_, row) =>
          (Redirect "volunteer_tasks",
           World (with_incidents (mirror_status status (incident_id row)) db1) (outbox w))
      end
  end.

(** The view function [resources]; the name is the table's here. *)
Definition resources_view `{Env} : handler := λ w req,
  match method req with
  | POST =>
      let row := Resource (form_get req "type") (form_get req "qty")
                          (form_get req "location") in
      (Render "resources" (Some ("success", "Resource added successfully!")),
       World (with_resources (Sql.insert_row row) (db w)) (outbox w))
  | GET => (Render "resources" None, w)
  end.

Definition delete_resource `{Env} (resource_id : Z) : handler := λ w req,
  (Redirect "resources", World (with_resources (delete resource_id) (db w)) (outbox w)).

Definition predict `{Env} : handler := λ w req, (Render "predict" None, w).

(** ** Routes *)

Inductive route :=
| Dashboard
| Alerts
| Report
| AssignTasks
| VolunteerTasks
| UpdateTaskStatus
| Resources
| DeleteResource (resource_id : Z)
| Predict.

(** The argument of [@roles_required] on each route. *)
Definition permitted (r : route) : list string :=
  match r with
  | Dashboard => ["admin"; "reporter"; "coordinator"; "viewer"]
  | Alerts => ["admin"; "coordinator"]
  | Report => ["admin"; "reporter"]
  | AssignTasks => ["admin"; "coordinator"]
  | VolunteerTasks => ["volunteer"]
  | UpdateTaskStatus => ["volunteer"]
  | Resources => ["admin"; "coordinator"]
  | DeleteResource _ => ["admin"; "coordinator"]
  | Predict => ["admin"; "reporter"; "viewer"]
  end.

Definition body `{Env} (r : route) : handler :=
  match r with
  | Dashboard => dashboard
  | Alerts => alerts
  | Report => report_incident
  | AssignTasks => assign_tasks
  | VolunteerTasks => volunteer_tasks
  | UpdateTaskStatus => update_task_status
  | Resources => resources_view
  | DeleteResource resource_id => delete_resource resource_id
  | Predict => predict
  end.

(** The decorated view function that [@app.route] registers: [login_required]
    is the outer decorator.  Flask matches the URL and the method before it
    calls the view function; that step is not part of the model. *)
Definition view `{Env} (r : route) : handler :=
  login_required (roles_required (permitted r) (body r)).

(** ** Properties of the users table *)

(** The five roles that the registration form offers. *)
Definition ROLES : list string :=
  ["admin"; "coordinator"; "reporter"; "volunteer"; "viewer"].

Definition roles_valid (t : gmap Z user) : Prop :=
  map_Forall (λ _ u, role u ∈ ROLES) t.

Definition has_username (name : string) (t : gmap Z user) : Prop :=
  map_Exists (λ _ u, username u = name) t.

(** What can be done to the world: a registration, or a request to one of
    the gated routes. *)
Inductive action :=
| Register
| Visit (r : route).

Definition run `{Env} (a : action) : handler :=
  match a with
  | Register => register
  | Visit r => view r
  end.

(** The worlds that the program reaches from an empty database file by
    starts of the process and by requests, when every registration form that
    is posted carries (after stripping) one of the five roles. *)
Inductive reachable `{Env} : world → Prop :=
| reach_first_start clock :
    reachable (World (init_db clock empty_store) [])
| reach_restart w clock :
    reachable w → reachable (World (init_db clock (db w)) (outbox w))
| reach_request w a req :
    reachable w →
    (a = Register → method req = POST →
     Py.strip (form_get_or_empty req "role") ∈ ROLES) →
    reachable (run a w req).2.

(** ** Properties of the broadcast *)

(** A volunteer row that the broadcast selects: phone neither NULL nor ''. *)
Definition has_phone `{Env} (v : volunteer) : Prop :=
  match vol_phone v with
  | Some p => p ≠ ""
  | None => False
  end.

#[global] Instance has_phone_dec `{Env} (v : volunteer) : Decision (has_phone v).
Proof. unfold has_phone. destruct (vol_phone v); apply _. Defined.

Definition phone_of `{Env} (v : volunteer) : string := default "" (vol_phone v).

(** The call that [send_sms_alert] makes for a WhatsApp alert. *)
Definition whatsapp_call `{Env} (message phone : string) : sms :=
  Sms message TWILIO_WHATSAPP_FROM
      (if Py.startswith "whatsapp:" phone then phone else "whatsapp:" +:+ phone).

(** ** Routes that set or read the session *)

(** What [login], [logout] and [index] return: the login page with its
    [message], or a redirect. *)
Inductive session_response :=
| LoginPage (message : option string)
| RedirectTo (endpoint : string).

(** [SELECT id,username,password_hash,role,contact FROM users WHERE
    username=?] followed by [fetchone()]. *)
Definition select_user (name : string) (t : gmap Z user) : option (Z * user) :=
  head (filter (λ kv, username kv.2 = name) (Sql.rows t)).

(** [login] returns its response and [session["user"]] after the request;
    it does not write to the database. *)
Definition login `{Env} (w : world) (req : request) : session_response * option session_user :=
  match method req with
  | POST =>
      let u := form_get_or_empty req "username" in
      let p := form_get_or_empty req "password" in
      match select_user u (users (db w)) with
      | Some (k, row) =>
          if String.eqb (sha256_hex p) (password_hash row)
          then (RedirectTo "index",
                Some (SessionUser k (username row) (role row) (contact row)))
          else (LoginPage (Some "Invalid credentials"), session req)
      | None => (LoginPage (Some "Invalid credentials"), session req)
      end
  | GET => (LoginPage None, session req)
  end.

(** [session.clear()] *)
Definition logout (req : request) : session_response * option session_user :=
  (RedirectTo "login", None).

Definition index (req : request) : session_response :=
  match session req with
  | None => RedirectTo "login"
  | Some u =>
      if bool_decide (su_role u ∈ ["admin"; "reporter"; "coordinator"; "viewer"])
      then RedirectTo "dashboard"
      else if bool_decide (su_role u = "volunteer") then RedirectTo "volunteer_tasks"
      else RedirectTo "login"
  end.

(** The endpoints that [index] redirects to, as routes. *)
Definition route_of_endpoint (e : string) : option route :=
  if bool_decide (e = "dashboard") then Some Dashboard
  else if bool_decide (e = "volunteer_tasks") then Some VolunteerTasks
  else None.

(** ** What the read-only views select *)

Record hotspot `{Env} := Hotspot {
  hs_lat : option float;
  hs_lng : option float;
  hs_w : Z
}.

Arguments Hotspot {_} _ _ _.

Definition is_open `{Env} (kv : Z * incident) : Prop := inc_status kv.2 = "open".

#[global] Instance is_open_dec `{Env} (kv : Z * incident) : Decision (is_open kv).
Proof. unfold is_open. apply _. Defined.

(** The list that [api_hotspots] returns as JSON: lat, lng and severity (as
    the weight) of the open incidents, heaviest first. *)
Definition api_hotspots `{Env} (s : store) : list hotspot :=
  (λ kv, Hotspot (inc_lat kv.2) (inc_lng kv.2) (inc_severity kv.2))
    <$> merge_sort heavier (filter is_open (Sql.rows (incidents s))).

(** ** Histories of the program *)

(** The worlds reached from an empty database file by starts of the process
    and by any registrations and requests to the gated routes. *)
Inductive reached `{Env} : world → Prop :=
| reached_first_start clock :
    reached (World (init_db clock empty_store) [])
| reached_restart w clock :
    reached w → reached (World (init_db clock (db w)) (outbox w))
| reached_request w a req :
    reached w → reached (run a w req).2.

(** No two user rows with the same username. *)
Definition names_unique (t : gmap Z user) : Prop :=
  ∀ k1 k2 u1 u2,
    t !! k1 = Some u1 → t !! k2 = Some u2 → username u1 = username u2 → k1 = k2.

(** The three values of an incident's status. *)
Definition INCIDENT_STATUS : list string := ["open"; "in_progress"; "closed"].

(** The writes that one request can make to the database, table by table. *)
Inductive db_write `{Env} : store → store → Prop :=
| write_nothing s :
    db_write s s
| write_user s u :
    ¬ has_username (username u) (users s) →
    db_write s (with_users (λ _, Sql.insert_row u (users s)) s)
| write_incident s row :
    inc_status row = "open" →
    db_write s (with_incidents (Sql.insert_row row) s)
| write_assignment s i inc v vol at_ :
    incidents s !! i = Some inc →
    volunteers s !! v = Some vol →
    db_write s (with_incidents (alter (set_inc_status "in_progress") i)
                  (with_tasks (Sql.insert_row (Task i v None (Some "assigned") at_)) s))
| write_status s status k uid t :
    tasks s !! k = Some t →
    db_write s (with_incidents (mirror_status status (incident_id t))
                  (with_tasks
                     (alter (λ row, if decide (volunteer_id row = uid)
                                    then set_task_status status row else row) k)
                     s))
| write_resources s f :
    db_write s (with_resources f s).

(** ** A concrete environment and world, to run the program on

    Floats are stood in for by the integers and a NaN, SHA-256 by the
    identity, the rowid coercion by the decimal reader; the provider accepts
    every second call. *)

Module Demo.

Inductive num := Num (z : Z) | NaN.

(** [float(s)]: "nan" is read as the NaN, a decimal integer as itself. *)
Definition num_of_str (s : string) : option num :=
  if String.eqb s "nan" then Some NaN else Num <$> Py.int_of_str s.

Definition num_isnan (x : num) : bool :=
  match x with
  | NaN => true
  | Num _ => false
  end.

Definition num_fmt (x : num) : string :=
  match x with
  | NaN => "nan"
  | Num z => pretty z
  end.

Definition env : Env := {|
  float := num;
  py_float := num_of_str;
  float_isnan := num_isnan;
  float_dec := λ m _, Num m;
  fmt4f := num_fmt;
  sha256_hex := λ s, s;
  sql_rowid := Py.int_of_str;
  twilio_client := true;
  TWILIO_WHATSAPP_FROM := "whatsapp:+14155238886";
  TWILIO_SMS_FROM := "";
  messages_create := λ out _,
    if Nat.even (length out) then Created "SM0" else ApiError "timeout"
|}.

(** The world after the first start, at clock reading 0. *)
Definition world0 : @world env := @World env (@init_db env 0 (@empty_store env)) [].

Definition post (u : option session_user) (fields : list (string * string)) : request :=
  Request POST (list_to_map fields) u 5000000.

Definition admin : session_user := SessionUser 1 "admin" "admin" (Some "+1234567890").
Definition volunteer1 : session_user :=
  SessionUser 3 "volunteer1" "volunteer" (Some "+1234567892").

End Demo.

Module DemoTasks.
Import Demo.

(** The admin assigns incident 1 to volunteer 3 and incident 2 to
    volunteer 2: tasks 1 and 2. *)
Definition world1 : @world env :=
  (@assign_tasks env
     (@assign_tasks env world0
        (post (Some admin) [("incident_id", "1"); ("volunteer_id", "3")])).2
     (post (Some admin) [("incident_id", "2"); ("volunteer_id", "2")])).2.

Definition task1 : task := Task 1 3 None (Some "assigned") 5.
Definition task2 : task := Task 2 2 None (Some "assigned") 5.

Definition incident1 : @incident env :=
  @Incident env (Some "Debris Removal") 4 (Some (Num 2862)) (Some (Num 7722))
            "in_progress" 0.
Definition incident2 : @incident env :=
  @Incident env (Some "Medical Aid") 5 (Some (Num 2686)) (Some (Num 8096))
            "in_progress" 0.

End DemoTasks.

Module DemoReport.

(** A report whose severity is no integer literal. *)
Definition malformed : request :=
  Demo.post (Some Demo.admin)
            [("type", "Flood"); ("severity", "high"); ("lat", "1"); ("lng", "2")].

Definition well_formed : request :=
  Demo.post (Some Demo.admin)
            [("type", "Flood"); ("severity", "4"); ("lat", "1"); ("lng", "2")].

(** A report whose lat is the text "nan", which [float] accepts. *)
Definition without_lat : request :=
  Demo.post (Some Demo.admin)
            [("type", "Flood"); ("severity", "4"); ("lat", "nan"); ("lng", "2")].

(** The world after that report: incident 6 is open and its lat is NULL. *)
Definition world_nan : @world Demo.env :=
  (@report_incident Demo.env Demo.world0 without_lat).2.


(** An assignment of the incident without lat. *)
Definition assign_nan : request :=
  Demo.post (Some Demo.admin) [("incident_id", "6"); ("volunteer_id", "2")].

End DemoReport.

Module DemoRegister.

Definition duplicate : request :=
  Demo.post None [("username", " admin "); ("password", "x"); ("role", "viewer")].

(** The same form, posted by a user who is logged in. *)
Definition duplicate_logged_in : request :=
  Demo.post (Some Demo.admin)
            [("username", " admin "); ("password", "x"); ("role", "viewer")].

Definition unchecked_role : request :=
  Demo.post None [("username", "eve"); ("password", "x"); ("role", "superuser")].

Definition from_the_form : request :=
  Demo.post None [("username", "eve"); ("password", "x"); ("role", " viewer ")].

End DemoRegister.

Module DemoAlerts.

Definition broadcast : request :=
  Demo.post (Some Demo.admin) [("recipient_type", "all_volunteers"); ("message", " hi ")].

End DemoAlerts.

(** The same environment without a Twilio client, and one whose provider
    raises on every call. *)
Module DemoGateway.

Definition env_off : Env := {|
  float := Demo.num;
  py_float := Demo.num_of_str;
  float_isnan := Demo.num_isnan;
  float_dec := λ m _, Demo.Num m;
  fmt4f := Demo.num_fmt;
  sha256_hex := λ s, s;
  sql_rowid := Py.int_of_str;
  twilio_client := false;
  TWILIO_WHATSAPP_FROM := "whatsapp:+14155238886";
  TWILIO_SMS_FROM := "";
  messages_create := λ _ _, Created "SM0"
|}.

Definition env_failing : Env := {|
  float := Demo.num;
  py_float := Demo.num_of_str;
  float_isnan := Demo.num_isnan;
  float_dec := λ m _, Demo.Num m;
  fmt4f := Demo.num_fmt;
  sha256_hex := λ s, s;
  sql_rowid := Py.int_of_str;
  twilio_client := true;
  TWILIO_WHATSAPP_FROM := "whatsapp:+14155238886";
  TWILIO_SMS_FROM := "+15005550006";
  messages_create := λ _ _, ApiError "HTTP 503"
|}.

Definition world_off : @world env_off :=
  @World env_off (@init_db env_off 0 (@empty_store env_off)) [].

Definition world_failing : @world env_failing :=
  @World env_failing (@init_db env_failing 0 (@empty_store env_failing)) [].

Definition to_all_users : request :=
  Demo.post (Some Demo.admin) [("recipient_type", "all_users"); ("message", "hi")].

End DemoGateway.

(** The call that [send_sms_alert] makes to the provider, when it makes
    one. *)
Definition alert_call `{Env} (use_whatsapp : bool) (message phone : string) : sms :=
  Sms message
      (if use_whatsapp then TWILIO_WHATSAPP_FROM else TWILIO_SMS_FROM)
      (if use_whatsapp && negb (Py.startswith "whatsapp:" phone)
       then "whatsapp:" +:+ phone else phone).

(** A call that goes to a phone number, as it is or as a WhatsApp address. *)
Definition addressed_to (m : sms) (phone : string) : Prop :=
  sms_to m = phone ∨ sms_to m = "whatsapp:" +:+ phone.

(** The phone numbers that a request selects for a message: for /alerts the
    submitted phone, the phones of the volunteers or the contacts of the
    users, by recipient type; for /assign_tasks the phone of the volunteer
    who is assigned. *)
Definition recipients `{Env} (a : action) (w : world) (req : request) : list string :=
  match a with
  | Visit Alerts =>
      let recipient_type := form_get req "recipient_type" in
      let phone := Py.strip (form_get_or_empty req "phone") in
      if bool_decide (recipient_type = Some "volunteer") && Py.truthy phone then [phone]
      else if bool_decide (recipient_type = Some "phone_number") && Py.truthy phone
      then [phone]
      else if bool_decide (recipient_type = Some "all_volunteers")
      then volunteer_phones (db w)
      else if bool_decide (recipient_type = Some "all_users") then user_contacts (db w)
      else []
  | Visit AssignTasks =>
      match Sql.by_text_id (form_get req "incident_id") (incidents (db w)),
            Sql.by_text_id (form_get req "volunteer_id") (volunteers (db w)) with
      | Some _, Some (_, volunteer) =>
          match vol_phone volunteer with
          | Some phone => if Py.truthy phone then [phone] else []
          | None => []
          end
      | _, _ => []
      end
  | _ => []
  end.

Module DemoSession.

Definition anonymous : request := Request GET ∅ None 5000000.

Definition as_volunteer : request := Request GET ∅ (Some Demo.volunteer1) 5000000.

Definition as_admin : request := Request GET ∅ (Some Demo.admin) 5000000.

(** A user whose role is none of those that [index] knows. *)
Definition superuser : session_user := SessionUser 6 "eve" "superuser" (Some "").

Definition sign_up : request :=
  Demo.post None [("username", " eve "); ("password", "pw"); ("role", "reporter");
                  ("contact", "+100")].

Definition sign_in : request :=
  Demo.post None [("username", "eve"); ("password", "pw")].

(** The username as it was typed at registration, spaces included. *)
Definition sign_in_unstripped : request :=
  Demo.post None [("username", " eve "); ("password", "pw")].

End DemoSession.

Module DemoEdge.

(** A status that the form does not offer. *)
Definition odd_status : request :=
  Demo.post (Some Demo.volunteer1) [("task_id", "1"); ("status", "done")].

Definition no_such_task : request :=
  Demo.post (Some Demo.volunteer1) [("task_id", "99"); ("status", "closed")].

Definition add_resource : request :=
  Demo.post (Some Demo.admin) [("type", "Tents"); ("qty", "12"); ("location", "Depot")].

End DemoEdge.

(** * Proofs *)

(** ** Facts about the SQL helpers *)

Section sql_facts.
Context {A : Type}.
Implicit Types (t : gmap Z A) (k : Z).

Lemma max_rowid_list_ge (l : list (Z * A)) k x :
  (k, x) ∈ l →
  ∃ m, foldr (λ kv acc, Some (from_option (Z.max kv.1) kv.1 acc)) None l = Some m
       ∧ k ≤ m.
Proof.
  induction l as [|[k' x'] l IH]; intros Hin; [by apply elem_of_nil in Hin|].
  apply elem_of_cons in Hin as [Heq|Hin]; simpl.
  - inversion Heq; subst.
    destruct (foldr _ None l); simpl; eexists; split; eauto; lia.
  - destruct (IH Hin) as (m & -> & Hle). simpl. eexists; split; eauto. lia.
Qed.

Lemma max_rowid_ge t k x :
  t !! k = Some x → ∃ m, Sql.max_rowid t = Some m ∧ k ≤ m.
Proof.
  intros Hk. apply (max_rowid_list_ge _ k x). by apply elem_of_map_to_list.
Qed.

Lemma next_rowid_fresh t : t !! Sql.next_rowid t = None.
Proof.
  destruct (t !! Sql.next_rowid t) as [x|] eqn:Hk; [|done].
  destruct (max_rowid_ge _ _ _ Hk) as (m & Hm & Hle).
  unfold Sql.next_rowid in Hle. rewrite Hm in Hle. simpl in Hle. lia.
Qed.

Lemma insert_row_size row t : size (Sql.insert_row row t) = S (size t).
Proof. apply map_size_insert_None, next_rowid_fresh. Qed.

Lemma insert_row_lookup_old row t k x :
  t !! k = Some x → Sql.insert_row row t !! k = Some x.
Proof.
  intros Hk. unfold Sql.insert_row. rewrite lookup_insert_ne; [done|].
  intros <-. by rewrite next_rowid_fresh in Hk.
Qed.

Lemma rows_Permutation t : Sql.rows t ≡ₚ map_to_list t.
Proof. apply merge_sort_Permutation. Qed.

End sql_facts.

Lemma alter_lookup_Some {A} (f : A → A) (t : gmap Z A) k x :
  t !! k = Some x → alter f k t = <[k := f x]> t.
Proof.
  intros Hk. apply map_eq. intros j. destruct (decide (k = j)) as [<-|Hne].
  - by rewrite lookup_alter_eq, lookup_insert_eq, Hk.
  - by rewrite lookup_alter_ne, lookup_insert_ne.
Qed.

Lemma by_text_id_Some `{Env} {A} x (t : gmap Z A) k row :
  Sql.by_text_id x t = Some (k, row) →
  ∃ s, x = Some s ∧ sql_rowid s = Some k ∧ t !! k = Some row.
Proof.
  unfold Sql.by_text_id. destruct x as [s|]; [|done].
  destruct (sql_rowid s) as [j|] eqn:Hs; [|done].
  destruct (t !! j) as [r|] eqn:Hj; simpl; [|done].
  intros [= <- <-]. by exists s.
Qed.

(** ** Task assignment *)

(** C1: a POST to /assign_tasks whose incident_id and volunteer_id both
    select an existing row inserts exactly one task row (at a rowid that was
    free), in status 'assigned' and referencing that incident and that
    volunteer, and sets the status of the incident to 'in_progress' whatever
    it was before; no other table and no other incident or task changes. *)
Theorem assign_tasks_existing `{Env} (w : world) (req : request) i inc v vol :
  method req = POST →
  Sql.by_text_id (form_get req "incident_id") (incidents (db w)) = Some (i, inc) →
  Sql.by_text_id (form_get req "volunteer_id") (volunteers (db w)) = Some (v, vol) →
  ∃ k,
    tasks (db w) !! k = None
    ∧ tasks (db (assign_tasks w req).2)
      = <[k := Task i v None (Some "assigned") (strftime_seconds (clock req))]>
          (tasks (db w))
    ∧ size (tasks (db (assign_tasks w req).2)) = S (size (tasks (db w)))
    ∧ incidents (db (assign_tasks w req).2)
      = <[i := set_inc_status "in_progress" inc]> (incidents (db w))
    ∧ inc_status <$> incidents (db (assign_tasks w req).2) !! i = Some "in_progress"
    ∧ users (db (assign_tasks w req).2) = users (db w)
    ∧ volunteers (db (assign_tasks w req).2) = volunteers (db w)
    ∧ resources (db (assign_tasks w req).2) = resources (db w)
    ∧ hospitals (db (assign_tasks w req).2) = hospitals (db w)
    ∧ shelters (db (assign_tasks w req).2) = shelters (db w).
Proof.
  intros Hm Hi Hv. unfold assign_tasks. rewrite Hm, Hi, Hv. cbn [snd db].
  apply by_text_id_Some in Hi as (si & _ & _ & Hi).
  exists (Sql.next_rowid (tasks (db w))).
  split; [apply next_rowid_fresh|].
  repeat split; cbn.
  - apply insert_row_size.
  - by apply alter_lookup_Some.
  - by rewrite lookup_alter_eq, Hi.
Qed.

Lemma assign_tasks_existing_witness :
  ∃ k,
    tasks (@db Demo.env Demo.world0) !! k = None
    ∧ tasks (@db Demo.env (@assign_tasks Demo.env Demo.world0
                   (Demo.post (Some Demo.admin)
                              [("incident_id", "3"); ("volunteer_id", "2")])).2) !! k
      = Some (Task 3 2 None (Some "assigned") 5).
Proof.
  destruct (@assign_tasks_existing Demo.env Demo.world0
              (Demo.post (Some Demo.admin) [("incident_id", "3"); ("volunteer_id", "2")])
              3 (@Incident Demo.env (Some "Shelter Request") 3 (Some (Demo.Num 3033)) (Some (Demo.Num 7804)) "closed" 0)
              2 (@Volunteer Demo.env "Diya" (Some "+919000000012") (Demo.Num 2685) (Demo.Num 8095) 1)
              eq_refl eq_refl eq_refl) as (k & Hfree & Htasks & _).
  exists k. split; [exact Hfree|].
  rewrite Htasks. apply lookup_insert_eq.
Defined.

Section render_facts.
Context `{Env}.

Lemma has_location_spec (i : incident) :
  has_location i = true ↔ is_Some (inc_lat i) ∧ is_Some (inc_lng i).
Proof.
  unfold has_location. by rewrite andb_true_iff, !bool_decide_eq_true.
Qed.

(** A page that lists incidents is rendered exactly when each of them has a
    lat and a lng; otherwise the template raises TypeError. *)
Lemma render_incidents_Render template message_sent listed :
  render_incidents template message_sent listed = Render template message_sent
  ↔ ∀ i, i ∈ listed → is_Some (inc_lat i) ∧ is_Some (inc_lng i).
Proof.
  unfold render_incidents. destruct (forallb has_location listed) eqn:Hall.
  - split; [intros _|done]. intros i Hi. apply has_location_spec.
    rewrite forallb_forall in Hall. apply Hall. by apply list_elem_of_In.
  - split; [done|]. intros Hloc.
    assert (forallb has_location listed = true) as Hall'; [|congruence].
    apply forallb_forall. intros i Hi. apply has_location_spec, Hloc.
    by apply list_elem_of_In.
Qed.

Lemma render_incidents_cases template message_sent listed :
  render_incidents template message_sent listed = Render template message_sent
  ∨ render_incidents template message_sent listed = Unhandled Py.TypeError.
Proof. unfold render_incidents. destruct (forallb _ _); auto. Qed.

Lemma active_incidents_elem (s : store) k inc :
  (k, inc) ∈ active_incidents s
  ↔ incidents s !! k = Some inc
    ∧ (inc_status inc = "open" ∨ inc_status inc = "in_progress").
Proof.
  unfold active_incidents.
  rewrite merge_sort_Permutation, list_elem_of_filter, (rows_Permutation (incidents s)),
    elem_of_map_to_list.
  unfold is_active. cbn. tauto.
Qed.

(** The assignment page is rendered exactly when every open or in-progress
    incident has a lat and a lng. *)
Lemma assign_page_Render (s : store) message_sent :
  render_incidents "assign_tasks" message_sent (snd <$> active_incidents s)
  = Render "assign_tasks" message_sent
  ↔ ∀ k inc, incidents s !! k = Some inc →
             inc_status inc = "open" ∨ inc_status inc = "in_progress" →
             is_Some (inc_lat inc) ∧ is_Some (inc_lng inc).
Proof.
  rewrite render_incidents_Render. split.
  - intros Hall k inc Hk Hst. apply Hall.
    apply list_elem_of_fmap. exists (k, inc). split; [done|].
    by apply active_incidents_elem.
  - intros Hall i Hi. apply list_elem_of_fmap in Hi as ([k inc] & -> & Hin).
    apply active_incidents_elem in Hin as [Hk Hst]. by eapply Hall.
Qed.

End render_facts.




(** ** Status updates by a volunteer *)

Section update_task_status_facts.
Context `{Env}.

(** A caller with a permitted role reaches the body of the view function. *)
Lemma view_permitted (r : route) (w : world) (req : request) u :
  session req = Some u →
  su_role u ∈ permitted r →
  view r w req = body r w req.
Proof.
  intros Hu Hrole. unfold view, login_required, roles_required, logged_in, role_in.
  rewrite Hu. rewrite bool_decide_true by eauto. cbn.
  by rewrite (bool_decide_true _ Hrole).
Qed.

Lemma volunteer_updates (w : world) (req : request) u :
  session req = Some u →
  su_role u = "volunteer" →
  view UpdateTaskStatus w req = update_task_status w req.
Proof.
  intros Hu Hrole. rewrite (view_permitted _ _ _ u Hu); [done|].
  rewrite Hrole. apply list_elem_of_here.
Qed.

(** What the handler does once the task is found, whoever owns it. *)
Lemma update_task_status_found (w : world) (req : request) u k t :
  session req = Some u →
  Sql.by_text_id (form_get req "task_id") (tasks (db w)) = Some (k, t) →
  let t' := if decide (volunteer_id t = su_id u)
            then set_task_status (form_get req "status") t else t in
  update_task_status w req
  = (Redirect "volunteer_tasks",
     World (with_incidents (mirror_status (form_get req "status") (incident_id t))
              (with_tasks (λ _, <[k := t']> (tasks (db w))) (db w)))
           (outbox w)).
Proof.
  intros Hu Hk t'. unfold update_task_status. rewrite Hu.
  destruct (by_text_id_Some _ _ _ _ Hk) as (s & Hs & Hrow & Ht).
  assert (Hupd : update_own_task (form_get req "status") (form_get req "task_id")
                   (su_id u) (tasks (db w)) = <[k := t']> (tasks (db w))).
  { unfold update_own_task. rewrite Hs, Hrow.
    by rewrite (alter_lookup_Some _ _ _ _ Ht). }
  unfold with_tasks at 1 2. cbn [tasks]. rewrite Hupd.
  unfold Sql.by_text_id. rewrite Hs, Hrow, lookup_insert_eq. cbn.
  assert (incident_id t' = incident_id t) as ->; [|done].
  subst t'. by destruct (decide _).
Qed.

Lemma mirror_status_known st i (t : gmap Z incident) inc :
  st ∈ ["closed"; "in_progress"; "open"] →
  t !! i = Some inc →
  mirror_status (Some st) i t = <[i := set_inc_status st inc]> t.
Proof.
  intros Hst Hi. unfold mirror_status.
  repeat (apply elem_of_cons in Hst as [->|Hst]);
    [| | |by apply elem_of_nil in Hst];
    repeat (case_bool_decide; try done); by apply alter_lookup_Some.
Qed.

End update_task_status_facts.

(** C3: when a logged-in user of role volunteer posts to
    /update_task_status the id of a task whose volunteer_id is the id of the
    session user, status 'closed' sets the status of that task and of its
    incident to 'closed', and status 'open' sets both to 'open'; no other
    task and no other incident changes. *)
Theorem update_task_status_own `{Env} (w : world) (req : request) u k t inc st :
  session req = Some u →
  su_role u = "volunteer" →
  Sql.by_text_id (form_get req "task_id") (tasks (db w)) = Some (k, t) →
  volunteer_id t = su_id u →
  incidents (db w) !! incident_id t = Some inc →
  form_get req "status" = Some st →
  st = "closed" ∨ st = "open" →
  (view UpdateTaskStatus w req).1 = Redirect "volunteer_tasks"
  ∧ tasks (db (view UpdateTaskStatus w req).2)
    = <[k := set_task_status (Some st) t]> (tasks (db w))
  ∧ incidents (db (view UpdateTaskStatus w req).2)
    = <[incident_id t := set_inc_status st inc]> (incidents (db w))
  ∧ task_status <$> tasks (db (view UpdateTaskStatus w req).2) !! k = Some (Some st)
  ∧ inc_status <$> incidents (db (view UpdateTaskStatus w req).2) !! incident_id t
    = Some st.
Proof.
  intros Hu Hrole Hk Hown Hinc Hst Hval.
  rewrite (volunteer_updates w req u Hu Hrole).
  rewrite (update_task_status_found w req u k t Hu Hk). cbn.
  rewrite Hst, decide_True by done.
  rewrite (mirror_status_known st _ _ inc); [|destruct Hval as [-> | ->]; set_solver|done].
  by rewrite !lookup_insert_eq.
Qed.

(** C5: when a logged-in user of role volunteer posts to
    /update_task_status a task_id that selects a task of another volunteer, the
    tasks table is left as it was, and the incident of that task still takes
    the submitted status (one of 'closed', 'in_progress', 'open'). *)
Theorem update_task_status_foreign `{Env} (w : world) (req : request) u k t inc st :
  session req = Some u →
  su_role u = "volunteer" →
  Sql.by_text_id (form_get req "task_id") (tasks (db w)) = Some (k, t) →
  volunteer_id t ≠ su_id u →
  incidents (db w) !! incident_id t = Some inc →
  form_get req "status" = Some st →
  st ∈ ["closed"; "in_progress"; "open"] →
  (view UpdateTaskStatus w req).1 = Redirect "volunteer_tasks"
  ∧ tasks (db (view UpdateTaskStatus w req).2) = tasks (db w)
  ∧ incidents (db (view UpdateTaskStatus w req).2)
    = <[incident_id t := set_inc_status st inc]> (incidents (db w))
  ∧ inc_status <$> incidents (db (view UpdateTaskStatus w req).2) !! incident_id t
    = Some st.
Proof.
  intros Hu Hrole Hk Hown Hinc Hst Hval.
  rewrite (volunteer_updates w req u Hu Hrole).
  rewrite (update_task_status_found w req u k t Hu Hk). cbn.
  rewrite Hst, decide_False by done.
  rewrite (mirror_status_known st _ _ inc) by done.
  destruct (by_text_id_Some _ _ _ _ Hk) as (_ & _ & _ & Ht).
  by rewrite insert_id, lookup_insert_eq.
Qed.

Lemma update_task_status_own_witness :
  task_status <$>
    @tasks Demo.env (@db Demo.env
             (@view Demo.env UpdateTaskStatus DemoTasks.world1
                (Demo.post (Some Demo.volunteer1)
                           [("task_id", "1"); ("status", "closed")])).2) !! 1
  = Some (Some "closed")
  ∧ @inc_status Demo.env <$>
      @incidents Demo.env (@db Demo.env
                   (@view Demo.env UpdateTaskStatus DemoTasks.world1
                      (Demo.post (Some Demo.volunteer1)
                                 [("task_id", "1"); ("status", "closed")])).2) !! 1
    = Some "closed".
Proof.
  destruct (@update_task_status_own Demo.env DemoTasks.world1
              (Demo.post (Some Demo.volunteer1) [("task_id", "1"); ("status", "closed")])
              Demo.volunteer1 1 DemoTasks.task1 DemoTasks.incident1 "closed"
              eq_refl eq_refl eq_refl eq_refl eq_refl eq_refl (or_introl eq_refl))
    as (_ & _ & _ & Htask & Hinc).
  split; [exact Htask | exact Hinc].
Defined.

Lemma update_task_status_foreign_witness :
  @tasks Demo.env (@db Demo.env
           (@view Demo.env UpdateTaskStatus DemoTasks.world1
              (Demo.post (Some Demo.volunteer1)
                         [("task_id", "2"); ("status", "closed")])).2)
  = @tasks Demo.env (@db Demo.env DemoTasks.world1)
  ∧ @inc_status Demo.env <$>
      @incidents Demo.env (@db Demo.env
                   (@view Demo.env UpdateTaskStatus DemoTasks.world1
                      (Demo.post (Some Demo.volunteer1)
                                 [("task_id", "2"); ("status", "closed")])).2) !! 2
    = Some "closed".
Proof.
  assert (Hst : "closed" ∈ ["closed"; "in_progress"; "open"]) by apply list_elem_of_here.
  assert (Hne : volunteer_id DemoTasks.task2 ≠ su_id Demo.volunteer1) by (cbn; lia).
  destruct (@update_task_status_foreign Demo.env DemoTasks.world1
              (Demo.post (Some Demo.volunteer1) [("task_id", "2"); ("status", "closed")])
              Demo.volunteer1 2 DemoTasks.task2 DemoTasks.incident2 "closed"
              eq_refl eq_refl eq_refl Hne eq_refl eq_refl Hst)
    as (_ & Htasks & _ & Hinc).
  split; [exact Htasks | exact Hinc].
Defined.

(** ** Access control *)

(** C4: on every role-gated route (dashboard, alerts, report, assign_tasks,
    volunteer_tasks, update_task_status, resources, resources/delete,
    predict), a request of a logged-in caller whose role is not in the list
    given to [roles_required] for that route is answered with [abort(403)]
    and the world (store and provider calls) is unchanged. *)
Theorem roles_required_forbidden `{Env} (r : route) (w : world) (req : request) u :
  session req = Some u →
  su_role u ∉ permitted r →
  view r w req = (Abort 403, w).
Proof.
  intros Hu Hrole. unfold view, login_required, roles_required, logged_in, role_in.
  rewrite Hu. rewrite bool_decide_true by eauto. cbn.
  by rewrite (bool_decide_false _ Hrole).
Qed.

Lemma roles_required_forbidden_witness :
  @view Demo.env Report Demo.world0
    (Demo.post (Some Demo.volunteer1)
               [("type", "Flood"); ("severity", "4"); ("lat", "1"); ("lng", "2")])
  = (Abort 403, Demo.world0).
Proof.
  apply (@roles_required_forbidden Demo.env Report Demo.world0
           (Demo.post (Some Demo.volunteer1)
                      [("type", "Flood"); ("severity", "4"); ("lat", "1"); ("lng", "2")])
           Demo.volunteer1 eq_refl).
  cbn. intros Hin. repeat (apply elem_of_cons in Hin as [Hin|Hin]; [discriminate|]).
  by apply elem_of_nil in Hin.
Defined.

(** ** Incident reports *)

(** Counterexample to C6 as stated: the severity "high" does not parse as an
    integer, and the view function does not render a page with a message:
    ValueError leaves it unhandled. *)
Lemma report_incident_malformed_not_rendered :
  Py.int (form_get DemoReport.malformed "severity") = inl Py.ValueError
  ∧ (@report_incident Demo.env Demo.world0 DemoReport.malformed).1
    = Unhandled Py.ValueError
  ∧ ¬ ∃ t m, (@report_incident Demo.env Demo.world0 DemoReport.malformed).1
             = Render t m.
Proof.
  split; [reflexivity|]. split; [reflexivity|].
  intros (t & m & Hr). discriminate Hr.
Qed.

(** C6, amended: a POST to /report whose severity is no integer literal, or
    whose lat or lng is no float literal, ends in an unhandled ValueError or
    TypeError (no page is rendered), and the world is unchanged: no incident
    is created. *)
Theorem report_incident_malformed `{Env} (w : world) (req : request) :
  method req = POST →
  (∃ s, form_get req "severity" = Some s ∧ Py.int_of_str s = None)
  ∨ (∃ s, form_get req "lat" = Some s ∧ py_float s = None)
  ∨ (∃ s, form_get req "lng" = Some s ∧ py_float s = None) →
  ∃ e, (e = Py.ValueError ∨ e = Py.TypeError)
       ∧ report_incident w req = (Unhandled e, w).
Proof.
  intros Hm Hbad. unfold report_incident. rewrite Hm.
  assert (Hint : ∀ x, (∃ e, (e = Py.ValueError ∨ e = Py.TypeError) ∧ Py.int x = inl e)
                      ∨ ∃ z, Py.int x = inr z).
  { intros [s|]; cbn; [destruct (Py.int_of_str s); cbn|]; eauto 6. }
  assert (Hfl : ∀ x, (∃ e, (e = Py.ValueError ∨ e = Py.TypeError) ∧ Py.float x = inl e)
                     ∨ ∃ z, Py.float x = inr z).
  { intros [s|]; cbn; [destruct (py_float s); cbn|]; eauto 6. }
  destruct (Hint (form_get req "severity")) as [(e & He & ->)|[sev Hsev]]; [eauto|].
  rewrite Hsev.
  destruct Hbad as [(s & Hs & Hnone)|Hbad].
  { rewrite Hs in Hsev. cbn in Hsev. by rewrite Hnone in Hsev. }
  destruct (Hfl (form_get req "lat")) as [(e & He & ->)|[la Hla]]; [eauto|].
  rewrite Hla.
  destruct Hbad as [(s & Hs & Hnone)|(s & Hs & Hnone)].
  { rewrite Hs in Hla. cbn in Hla. by rewrite Hnone in Hla. }
  rewrite Hs. cbn. rewrite Hnone. cbn. eauto.
Qed.

Lemma report_incident_malformed_witness :
  ∃ e, (e = Py.ValueError ∨ e = Py.TypeError)
       ∧ @report_incident Demo.env Demo.world0 DemoReport.malformed
         = (Unhandled e, Demo.world0).
Proof.
  apply (@report_incident_malformed Demo.env Demo.world0 DemoReport.malformed eq_refl).
  left. exists "high". split; reflexivity.
Defined.




(** ** Registration *)

(** C8: for a POST to /register with non-empty (stripped) username, password
    and role from a caller who is not logged in, when a user row already has
    the username: the INSERT fails and the world is unchanged (no row
    inserted, the first user's row untouched), but the error 'Username already
    exists' is not shown: the register page extends the layout, and rendering
    it without a user in the session raises UndefinedError. *)
Theorem register_duplicate_anonymous `{Env} (w : world) (req : request) :
  method req = POST →
  session req = None →
  Py.truthy (Py.strip (form_get_or_empty req "username")) = true →
  Py.truthy (Py.strip (form_get_or_empty req "password")) = true →
  Py.truthy (Py.strip (form_get_or_empty req "role")) = true →
  has_username (Py.strip (form_get_or_empty req "username")) (users (db w)) →
  register w req = (Unhandled Py.UndefinedError, w).
Proof.
  intros Hm Hs Hu Hp Hr Hex. unfold register, insert_user, render_layout.
  rewrite Hm, Hs, Hu, Hp, Hr. cbn [negb orb username].
  unfold has_username in Hex. by rewrite decide_True.
Qed.

Lemma register_duplicate_anonymous_witness :
  @register Demo.env Demo.world0 DemoRegister.duplicate
  = (Unhandled Py.UndefinedError, Demo.world0).
Proof.
  apply (@register_duplicate_anonymous Demo.env Demo.world0 DemoRegister.duplicate
           eq_refl eq_refl eq_refl eq_refl eq_refl).
  exists 1, (User "admin" "admin123" "admin" (Some "+1234567890")).
  split; reflexivity.
Defined.

(** X26: for a POST to /register with non-empty (stripped) username, password
    and role: if a user row already has the username, the world is unchanged
    (no row inserted, the first user's row untouched), and the page is
    rendered with the error 'Username already exists' when the caller is
    logged in; if no row has it, exactly one user row is inserted, at a rowid
    that was free, the caller is redirected to the login page and nothing
    else changes. *)
Theorem register_username_unique `{Env} (w : world) (req : request) :
  method req = POST →
  Py.truthy (Py.strip (form_get_or_empty req "username")) = true →
  Py.truthy (Py.strip (form_get_or_empty req "password")) = true →
  Py.truthy (Py.strip (form_get_or_empty req "role")) = true →
  (has_username (Py.strip (form_get_or_empty req "username")) (users (db w)) →
   (register w req).2 = w
   ∧ (is_Some (session req) →
      (register w req).1
      = Render "register" (Some ("error", "Username already exists"))))
  ∧ (¬ has_username (Py.strip (form_get_or_empty req "username")) (users (db w)) →
     ∃ k,
       users (db w) !! k = None
       ∧ size (users (db (register w req).2)) = S (size (users (db w)))
       ∧ register w req
         = (Redirect "login",
            World (with_users
                     (λ _, <[k := User (Py.strip (form_get_or_empty req "username"))
                                     (sha256_hex (Py.strip (form_get_or_empty req "password")))
                                     (Py.strip (form_get_or_empty req "role"))
                                     (Some (Py.strip (form_get_or_empty req "contact")))]>
                             (users (db w)))
                     (db w))
                  (outbox w))).
Proof.
  intros Hm Hu Hp Hr. unfold register, insert_user, has_username, render_layout.
  rewrite Hm, Hu, Hp, Hr. cbn [negb orb username].
  split; intros Hex.
  - rewrite decide_True by done. split; [done|]. by intros [u ->].
  - rewrite decide_False by done.
    exists (Sql.next_rowid (users (db w))).
    split; [apply next_rowid_fresh|]. split; [apply insert_row_size|done].
Qed.

Lemma register_username_unique_witness :
  @register Demo.env Demo.world0 DemoRegister.duplicate_logged_in
  = (Render "register" (Some ("error", "Username already exists")), Demo.world0).
Proof.
  destruct (@register_username_unique Demo.env Demo.world0 DemoRegister.duplicate_logged_in
              eq_refl eq_refl eq_refl eq_refl) as [Hdup _].
  destruct Hdup as [Hworld Hpage].
  { exists 1, (User "admin" "admin123" "admin" (Some "+1234567890")).
    split; reflexivity. }
  rewrite (surjective_pairing (@register Demo.env Demo.world0 DemoRegister.duplicate_logged_in)).
  rewrite Hworld, Hpage; [reflexivity|]. by eexists.
Defined.

(** Counterexample to C7 as stated: registration with the role "superuser"
    succeeds and leaves a user row whose role is none of the five. *)
Lemma register_unchecked_role :
  (@register Demo.env Demo.world0 DemoRegister.unchecked_role).1 = Redirect "login"
  ∧ @users Demo.env
      (@db Demo.env (@register Demo.env Demo.world0 DemoRegister.unchecked_role).2) !! 6
    = Some (User "eve" "x" "superuser" (Some ""))
  ∧ ("superuser" ∉ ROLES)
  ∧ ¬ roles_valid
        (@users Demo.env
           (@db Demo.env (@register Demo.env Demo.world0 DemoRegister.unchecked_role).2)).
Proof.
  assert (Hout : "superuser" ∉ ROLES).
  { intros Hin. unfold ROLES in Hin.
    repeat (apply elem_of_cons in Hin as [Hin|Hin]; [discriminate|]).
    by apply elem_of_nil in Hin. }
  split; [reflexivity|]. split; [reflexivity|]. split; [exact Hout|].
  intros Hvalid. apply Hout.
  exact (Hvalid 6 (User "eve" "x" "superuser" (Some "")) eq_refl).
Qed.

Section roles_facts.
Context `{Env}.

Lemma roles_valid_insert_row u (t : gmap Z user) :
  roles_valid t → role u ∈ ROLES → roles_valid (Sql.insert_row u t).
Proof. intros Ht Hu. by apply map_Forall_insert_2. Qed.

Lemma roles_valid_insert_rows rows (t : gmap Z user) :
  roles_valid t → Forall (λ u, role u ∈ ROLES) rows →
  roles_valid (Sql.insert_rows rows t).
Proof.
  intros Ht Hrows. revert t Ht.
  induction Hrows as [|u rows Hu _ IH]; intros t Ht; [done|].
  apply IH. by apply roles_valid_insert_row.
Qed.

Lemma seed_users_roles : Forall (λ u, role u ∈ ROLES) seed_users.
Proof. unfold seed_users, ROLES. repeat constructor; cbn; set_solver. Qed.

Lemma init_db_roles_valid clock (s : store) :
  roles_valid (users s) → roles_valid (users (init_db clock s)).
Proof.
  intros Hs. cbn. unfold seed. case_decide; [|done].
  apply roles_valid_insert_rows; [done|apply seed_users_roles].
Qed.

(** The role of a registered user is the stripped form field, as it is. *)
Lemma register_users (w : world) (req : request) :
  users (db (register w req).2) = users (db w)
  ∨ (method req = POST
     ∧ ∃ name hash c,
         users (db (register w req).2)
         = Sql.insert_row (User name hash (Py.strip (form_get_or_empty req "role")) c)
                          (users (db w))).
Proof.
  unfold register, insert_user. destruct (method req); [by left|].
  repeat case_match; simplify_eq; cbn; eauto 8.
Qed.

(** No gated view writes to the users table. *)
Lemma view_keeps_users (r : route) (w : world) (req : request) :
  users (db (view r w req).2) = users (db w).
Proof.
  unfold view, login_required, roles_required.
  repeat case_match; try done.
  destruct r; cbn;
    unfold dashboard, alerts, report_incident, assign_tasks, volunteer_tasks,
           update_task_status, resources_view, delete_resource, predict;
    repeat case_match; done.
Qed.

End roles_facts.

(** C7, amended: registration stores the submitted role as it is (stripped,
    not checked); every user row has one of the five roles in every world
    reached from the first start by restarts, by requests to the gated
    routes and by registrations whose form carries one of the five roles. *)
Theorem reachable_roles_valid `{Env} (w : world) :
  reachable w → roles_valid (users (db w)).
Proof.
  induction 1 as [clock|w clock _ IH|w a req _ IH Hrole].
  - apply init_db_roles_valid. apply map_Forall_empty.
  - by apply init_db_roles_valid.
  - destruct a as [|r]; cbn [run].
    + destruct (register_users w req) as [->|(Hm & name & hash & c & ->)]; [done|].
      apply roles_valid_insert_row; [done|]. by apply Hrole.
    + by rewrite view_keeps_users.
Qed.

Lemma reachable_roles_valid_witness :
  roles_valid
    (@users Demo.env
       (@db Demo.env (@register Demo.env Demo.world0 DemoRegister.from_the_form).2)).
Proof.
  apply (@reachable_roles_valid Demo.env
           (@run Demo.env Register Demo.world0 DemoRegister.from_the_form).2).
  apply (@reach_request Demo.env Demo.world0 Register DemoRegister.from_the_form).
  - apply (@reach_first_start Demo.env 0).
  - intros _ _. vm_compute. do 4 apply list_elem_of_further. apply list_elem_of_here.
Defined.

(** ** Alerts *)

Section alerts_facts.
Context `{Env}.

Lemma truthy_spec s : Py.truthy s = true ↔ s ≠ "".
Proof.
  unfold Py.truthy. destruct (String.eqb_spec s ""); cbn; split; congruence.
Qed.

Lemma send_sms_alert_whatsapp phone message out :
  twilio_client = true →
  Py.truthy TWILIO_WHATSAPP_FROM = true →
  (send_sms_alert phone message true out).2 = out ++ [whatsapp_call message phone].
Proof.
  intros Hc Hfrom. unfold send_sms_alert, whatsapp_call.
  rewrite Hc, Hfrom. cbn.
  by destruct (Py.startswith _ _); cbn; destruct (messages_create _ _).
Qed.

(** Every pass of the loop bumps exactly one of the two counters. *)
Lemma send_each_counts phones message wa sent failed out :
  ((send_each phones message wa sent failed out).1.1
   + (send_each phones message wa sent failed out).1.2
   = sent + failed + length phones)%nat.
Proof.
  revert sent failed out.
  induction phones as [|p phones IH]; intros sent failed out; cbn; [lia|].
  destruct (send_sms_alert p message wa out) as [[[] msg] out'];
    rewrite IH; lia.
Qed.

(** A failed call does not end the loop: with a sender number, the provider
    is called once for each phone number, in order. *)
Lemma send_each_calls phones message sent failed out :
  twilio_client = true →
  Py.truthy TWILIO_WHATSAPP_FROM = true →
  (send_each phones message true sent failed out).2
  = out ++ (whatsapp_call message <$> phones).
Proof.
  intros Hc Hfrom. revert sent failed out.
  induction phones as [|p phones IH]; intros sent failed out; cbn.
  { by rewrite app_nil_r. }
  pose proof (send_sms_alert_whatsapp p message out Hc Hfrom) as Hcall.
  destruct (send_sms_alert p message true out) as [[[] msg] out'];
    cbn in Hcall; subst out'; rewrite IH; by rewrite <- app_assoc.
Qed.

Lemma map_to_list_filter_Permutation {A} (P : Z * A → Prop)
    `{!∀ x, Decision (P x)} (t : gmap Z A) :
  map_to_list (filter P t) ≡ₚ filter P (map_to_list t).
Proof.
  rewrite map_filter_alt. apply map_to_list_to_map.
  eapply sublist_NoDup; [apply (NoDup_fst_map_to_list t)|].
  apply fmap_sublist, sublist_filter.
Qed.

Lemma selected_phone_list (l : list (Z * volunteer)) :
  omap (λ kv, match vol_phone kv.2 with
              | Some p => if Py.truthy p then Some p else None
              | None => None
              end) l
  = (λ kv, phone_of kv.2) <$> filter (λ kv, has_phone kv.2) l.
Proof.
  induction l as [|[k v] l IH]; [done|].
  rewrite filter_cons. csimpl. rewrite IH. clear IH.
  destruct (decide (has_phone v)) as [Hp|Hp]; unfold has_phone in Hp.
  - destruct (vol_phone v) as [p|] eqn:Hv; [|done].
    apply truthy_spec in Hp. rewrite Hp. csimpl. unfold phone_of. cbn.
    by rewrite Hv.
  - destruct (vol_phone v) as [p|] eqn:Hv; [|done].
    destruct (Py.truthy p) eqn:Ht; [|done].
    by apply truthy_spec in Ht.
Qed.

(** The SELECT returns the phone of each selected row, once. *)
Lemma volunteer_phones_rows (s : store) :
  volunteer_phones s
  ≡ₚ (λ kv, phone_of kv.2)
       <$> map_to_list (filter (λ kv, has_phone kv.2) (volunteers s)).
Proof.
  unfold volunteer_phones.
  rewrite (rows_Permutation (volunteers s)), selected_phone_list.
  by rewrite map_to_list_filter_Permutation.
Qed.

Lemma volunteer_phones_length (s : store) :
  length (volunteer_phones s)
  = size (filter (λ kv, has_phone kv.2) (volunteers s)).
Proof.
  rewrite (volunteer_phones_rows s), length_fmap. apply length_map_to_list.
Qed.

End alerts_facts.

(** C9: with the Twilio client configured, a POST to /alerts with a
    non-empty message and recipient type all_volunteers runs the loop over
    the phones of the volunteer rows whose phone is neither NULL nor '' (one
    entry per such row); the counters end with sent + failed equal to the
    number N of those rows; and with a WhatsApp sender number the provider is
    called exactly once per such row, whatever the earlier calls returned.
    The database is not written. *)
Theorem alerts_all_volunteers `{Env} (w : world) (req : request) :
  method req = POST →
  twilio_client = true →
  Py.truthy (Py.strip (form_get_or_empty req "message")) = true →
  form_get req "recipient_type" = Some "all_volunteers" →
  ∃ sent failed out,
    send_each (volunteer_phones (db w)) (Py.strip (form_get_or_empty req "message"))
              true 0 0 (outbox w)
    = ((sent, failed), out)
    ∧ (alerts w req).2 = World (db w) out
    ∧ volunteer_phones (db w)
      ≡ₚ (λ kv, phone_of kv.2)
           <$> map_to_list (filter (λ kv, has_phone kv.2) (volunteers (db w)))
    ∧ (sent + failed)%nat = size (filter (λ kv, has_phone kv.2) (volunteers (db w)))
    ∧ (Py.truthy TWILIO_WHATSAPP_FROM = true →
       out = outbox w
             ++ (whatsapp_call (Py.strip (form_get_or_empty req "message"))
                   <$> volunteer_phones (db w)))
    ∧ (volunteer_phones (db w) ≠ [] →
       (alerts w req).1
       = Render "alerts"
           (Some (all_volunteers_message sent failed
                    (length (volunteer_phones (db w)))))).
Proof.
  intros Hm Hc Hmsg Hrt.
  destruct (send_each (volunteer_phones (db w))
              (Py.strip (form_get_or_empty req "message")) true 0 0 (outbox w))
    as [[sent failed] out] eqn:Hloop.
  exists sent, failed, out. split; [done|].
  pose proof (send_each_counts (volunteer_phones (db w))
                (Py.strip (form_get_or_empty req "message")) true 0 0 (outbox w))
    as Hcount.
  rewrite Hloop in Hcount. cbn in Hcount.
  assert (Hrun : alerts w req
                 = match volunteer_phones (db w) with
                   | [] => (Render "alerts"
                              (Some ("error", "No volunteers with phone numbers found")), w)
                   | _ => (Render "alerts"
                             (Some (all_volunteers_message sent failed
                                      (length (volunteer_phones (db w))))),
                           World (db w) out)
                   end).
  { unfold alerts. rewrite Hm, Hmsg, Hc, Hrt. cbn [negb].
    rewrite !(bool_decide_false (Some "all_volunteers" = Some _)) by done.
    rewrite bool_decide_true by done. cbn [andb].
    destruct (volunteer_phones (db w)) as [|p ps]; [done|]. by rewrite Hloop. }
  split; [|split; [apply volunteer_phones_rows|split; [|split]]].
  - rewrite Hrun. destruct (volunteer_phones (db w)) as [|p ps]; [|done].
    cbn in Hloop. injection Hloop as _ _ <-. by destruct w.
  - rewrite <- volunteer_phones_length. lia.
  - intros Hfrom.
    pose proof (send_each_calls (volunteer_phones (db w))
                  (Py.strip (form_get_or_empty req "message")) 0 0 (outbox w) Hc Hfrom)
      as Hcalls.
    by rewrite Hloop in Hcalls.
  - intros Hne. rewrite Hrun. by destruct (volunteer_phones (db w)).
Qed.

Lemma alerts_all_volunteers_witness :
  ∃ sent failed out,
    @send_each Demo.env (@volunteer_phones Demo.env (@db Demo.env Demo.world0))
               "hi" true 0 0 []
    = ((sent, failed), out)
    ∧ (sent + failed)%nat = 4%nat.
Proof.
  destruct (@alerts_all_volunteers Demo.env Demo.world0 DemoAlerts.broadcast
              eq_refl eq_refl eq_refl eq_refl)
    as (sent & failed & out & Hloop & _ & _ & Hcount & _).
  exists sent, failed, out. split; [exact Hloop|].
  rewrite Hcount. vm_compute. reflexivity.
Defined.

(** * Further properties of the program *)

(** ** The alert gateway *)

Section gateway_facts.
Context `{Env}.

(** [send_sms_alert] in cases: no call, or one call appended. *)
Lemma send_sms_alert_cases phone message wa out :
  ((send_sms_alert phone message wa out).1.1 = false
   ∧ (send_sms_alert phone message wa out).2 = out
   ∧ (twilio_client = false
      ∨ (if wa then TWILIO_WHATSAPP_FROM else TWILIO_SMS_FROM) = ""))
  ∨ ∃ m,
      (send_sms_alert phone message wa out).2 = out ++ [m]
      ∧ twilio_client = true
      ∧ sms_body m = message
      ∧ sms_from m = (if wa then TWILIO_WHATSAPP_FROM else TWILIO_SMS_FROM)
      ∧ sms_from m ≠ ""
      ∧ (send_sms_alert phone message wa out).1.1
        = match messages_create out m with Created _ => true | ApiError _ => false end.
Proof.
  unfold send_sms_alert. destruct twilio_client; cbn [negb]; [|by left; auto].
  destruct (Py.truthy (if wa then _ else _)) eqn:Hfrom; cbn [negb].
  - right. eexists. split; [|split; [done|split; [|split; [|split]]]].
    + by destruct (messages_create _ _).
    + done.
    + done.
    + cbn. unfold Py.truthy in Hfrom. destruct (String.eqb_spec
        (if wa then TWILIO_WHATSAPP_FROM else TWILIO_SMS_FROM) ""); [done|].
      by destruct wa.
    + by destruct (messages_create _ _).
  - left. split; [done|]. split; [done|]. right.
    unfold Py.truthy in Hfrom.
    by destruct (String.eqb_spec (if wa then TWILIO_WHATSAPP_FROM else TWILIO_SMS_FROM) "").
Qed.

Lemma send_sms_alert_appends phone message wa out :
  ∃ calls, (send_sms_alert phone message wa out).2 = out ++ calls
           ∧ (length calls ≤ 1)%nat.
Proof.
  destruct (send_sms_alert_cases phone message wa out) as [(_ & -> & _)|(m & -> & _)].
  - exists []. by rewrite app_nil_r; cbn; split; [|lia].
  - exists [m]. split; [done|cbn; lia].
Qed.

Lemma send_each_appends phones message wa sent failed out :
  ∃ calls, (send_each phones message wa sent failed out).2 = out ++ calls
           ∧ (length calls ≤ length phones)%nat.
Proof.
  revert sent failed out.
  induction phones as [|p phones IH]; intros sent failed out; cbn.
  { exists []. by rewrite app_nil_r; split; [|cbn; lia]. }
  destruct (send_sms_alert_appends p message wa out) as (c1 & Hc1 & Hl1).
  destruct (send_sms_alert p message wa out) as [[ok msg] out'] eqn:Hs.
  cbn in Hc1. subst out'.
  destruct ok.
  - destruct (IH (S sent) failed (out ++ c1)) as (c2 & -> & Hl2).
    exists (c1 ++ c2). rewrite app_assoc, length_app. split; [done|lia].
  - destruct (IH sent (S failed) (out ++ c1)) as (c2 & -> & Hl2).
    exists (c1 ++ c2). rewrite app_assoc, length_app. split; [done|lia].
Qed.

End gateway_facts.

(** X1: [send_sms_alert] reports success exactly when it has called the
    provider and the provider has created the message; an exception of the
    provider, a missing client and a missing sender number all come back as
    failure, never as an exception. *)
Theorem send_sms_alert_reports_provider `{Env} phone message wa out :
  (send_sms_alert phone message wa out).1.1 = true
  ↔ ∃ m sid, (send_sms_alert phone message wa out).2 = out ++ [m]
             ∧ messages_create out m = Created sid.
Proof.
  destruct (send_sms_alert_cases phone message wa out)
    as [(Hflag & Hout & _)|(m & Hout & _ & _ & _ & _ & Hflag)]; split.
  - rewrite Hflag. done.
  - intros (m & sid & Hout' & _). rewrite Hout in Hout'.
    apply (f_equal length) in Hout'. rewrite length_app in Hout'. cbn in Hout'. lia.
  - intros Htrue. rewrite Hflag in Htrue.
    destruct (messages_create out m) as [sid|] eqn:Hm; [|done]. eauto.
  - intros (m' & sid & Hout' & Hm). rewrite Hout in Hout'.
    apply app_inj_tail in Hout' as [_ <-]. by rewrite Hflag, Hm.
Qed.

(** X2: every WhatsApp call goes out from the WhatsApp sender number, with
    the message as its body, to an address that starts with "whatsapp:"; a
    phone that has the prefix already is not prefixed twice. *)
Theorem whatsapp_call_address `{Env} phone message out m :
  (send_sms_alert phone message true out).2 = out ++ [m] →
  Py.startswith "whatsapp:" (sms_to m) = true
  ∧ (Py.startswith "whatsapp:" phone = true → sms_to m = phone)
  ∧ (Py.startswith "whatsapp:" phone = false → sms_to m = "whatsapp:" +:+ phone)
  ∧ sms_from m = TWILIO_WHATSAPP_FROM
  ∧ sms_body m = message.
Proof.
  unfold send_sms_alert. intros Hcall.
  destruct twilio_client; cbn [negb] in Hcall.
  2:{ apply (f_equal length) in Hcall. rewrite length_app in Hcall. cbn in Hcall. lia. }
  destruct (Py.truthy TWILIO_WHATSAPP_FROM); cbn [negb] in Hcall.
  2:{ apply (f_equal length) in Hcall. rewrite length_app in Hcall. cbn in Hcall. lia. }
  assert (Hm : m = Sms message TWILIO_WHATSAPP_FROM
                 (if true && negb (Py.startswith "whatsapp:" phone)
                  then "whatsapp:" +:+ phone else phone)).
  { destruct (messages_create _ _); cbn in Hcall;
      by apply app_inj_tail in Hcall as [_ <-]. }
  subst m. cbn [sms_to sms_from sms_body].
  destruct (Py.startswith "whatsapp:" phone) eqn:Hp; cbn [andb negb];
    repeat split; intros; try done.
  by destruct phone.
Qed.

Lemma whatsapp_call_address_witness :
  ∃ m, (@send_sms_alert Demo.env "+919000000011" "hi" true []).2 = [m]
       ∧ sms_to m = "whatsapp:+919000000011".
Proof.
  exists (Sms "hi" "whatsapp:+14155238886" "whatsapp:+919000000011").
  split; [reflexivity|].
  destruct (@whatsapp_call_address Demo.env "+919000000011" "hi" []
              (Sms "hi" "whatsapp:+14155238886" "whatsapp:+919000000011") eq_refl)
    as (_ & _ & Hto & _).
  exact (Hto eq_refl).
Defined.

Section outbox_facts.
Context `{Env}.

Lemma alert_call_addressed wa message phone :
  addressed_to (alert_call wa message phone) phone.
Proof.
  unfold addressed_to, alert_call. cbn. destruct (_ && _); auto.
Qed.

(** [send_sms_alert] calls the provider when there are a client and a sender
    number, and only then. *)
Lemma send_sms_alert_out phone message wa out :
  (send_sms_alert phone message wa out).2
  = out ++ (if twilio_client
               && Py.truthy (if wa then TWILIO_WHATSAPP_FROM else TWILIO_SMS_FROM)
            then [alert_call wa message phone] else []).
Proof.
  unfold send_sms_alert, alert_call. destruct twilio_client; cbn [negb andb].
  - destruct (Py.truthy (if wa then _ else _)); cbn [negb].
    + by destruct (messages_create _ _).
    + by rewrite app_nil_r.
  - by rewrite app_nil_r.
Qed.

Lemma send_each_out phones message wa sent failed out :
  (send_each phones message wa sent failed out).2
  = out ++ (if twilio_client
               && Py.truthy (if wa then TWILIO_WHATSAPP_FROM else TWILIO_SMS_FROM)
            then alert_call wa message <$> phones else []).
Proof.
  revert sent failed out.
  induction phones as [|p phones IH]; intros sent failed out; cbn [send_each].
  { destruct (_ && _); by rewrite app_nil_r. }
  pose proof (send_sms_alert_out p message wa out) as Hcall.
  destruct (send_sms_alert p message wa out) as [[ok msg] out'].
  cbn in Hcall. subst out'.
  destruct ok; rewrite IH; destruct (_ && _); cbn;
    by rewrite <- ?app_assoc, ?app_nil_r.
Qed.

Lemma calls_addressed (sending : bool) wa message phones :
  let calls := if sending then alert_call wa message <$> phones else [] in
  calls = [] ∨ Forall2 addressed_to calls phones.
Proof.
  destruct sending; cbn; [right|by left].
  apply Forall2_fmap_l, Forall_Forall2_diag, Forall_forall.
  intros p _. apply alert_call_addressed.
Qed.

Lemma alerts_appends (w : world) (req : request) :
  db (alerts w req).2 = db w
  ∧ ∃ calls,
      outbox (alerts w req).2 = outbox w ++ calls
      ∧ (calls = [] ∨ Forall2 addressed_to calls (recipients (Visit Alerts) w req)).
Proof.
  assert (Hnone : ∀ l, db w = db w
            ∧ ∃ calls, outbox w = outbox w ++ calls
                       ∧ (calls = [] ∨ Forall2 addressed_to calls l)).
  { intros l. split; [done|]. exists []. rewrite app_nil_r. by split; [|left]. }
  unfold alerts, recipients. destruct (method req); [apply Hnone|].
  destruct (negb (Py.truthy _)); [apply Hnone|].
  destruct (negb twilio_client); [apply Hnone|].
  destruct (_ && _).
  { pose proof (send_sms_alert_out (Py.strip (form_get_or_empty req "phone"))
                  (Py.strip (form_get_or_empty req "message")) true (outbox w)) as Hc.
    destruct (send_sms_alert _ _ true _) as [r out]. cbn in *. subst out.
    split; [done|]. eexists. split; [done|].
    apply (calls_addressed _ true _ [_]). }
  destruct (_ && _).
  { pose proof (send_sms_alert_out (Py.strip (form_get_or_empty req "phone"))
                  (Py.strip (form_get_or_empty req "message")) false (outbox w)) as Hc.
    destruct (send_sms_alert _ _ false _) as [r out]. cbn in *. subst out.
    split; [done|]. eexists. split; [done|].
    apply (calls_addressed _ false _ [_]). }
  destruct (bool_decide _).
  { destruct (volunteer_phones (db w)) as [|p ps] eqn:Hps; [apply Hnone|]. rewrite <- Hps.
    pose proof (send_each_out (volunteer_phones (db w))
                  (Py.strip (form_get_or_empty req "message")) true 0 0 (outbox w)) as Hc.
    destruct (send_each _ _ true _ _ _) as [[sent failed] out]. cbn in *. subst out.
    split; [done|]. eexists. split; [done|]. apply calls_addressed. }
  destruct (bool_decide _); [|apply Hnone].
  destruct (user_contacts (db w)) as [|p ps] eqn:Hps; [apply Hnone|]. rewrite <- Hps.
  pose proof (send_each_out (user_contacts (db w))
                (Py.strip (form_get_or_empty req "message")) false 0 0 (outbox w)) as Hc.
  destruct (send_each _ _ false _ _ _) as [[sent failed] out]. cbn in *. subst out.
  split; [done|]. eexists. split; [done|]. apply calls_addressed.
Qed.

Lemma assign_tasks_appends (w : world) (req : request) :
  ∃ calls,
    outbox (assign_tasks w req).2 = outbox w ++ calls
    ∧ (calls = [] ∨ Forall2 addressed_to calls (recipients (Visit AssignTasks) w req)).
Proof.
  assert (Hnone : ∀ l, ∃ calls, outbox w = outbox w ++ calls
                                ∧ (calls = [] ∨ Forall2 addressed_to calls l)).
  { intros l. exists []. rewrite app_nil_r. by split; [|left]. }
  unfold assign_tasks, recipients. destruct (method req); [apply Hnone|].
  destruct (Sql.by_text_id _ (incidents _)) as [[i inc]|]; [|apply Hnone].
  destruct (Sql.by_text_id _ (volunteers _)) as [[v vol]|]; [|apply Hnone]. cbn.
  destruct (vol_phone vol) as [phone|]; [|apply Hnone].
  destruct twilio_client eqn:Hc; cbn [andb]; [|apply Hnone].
  destruct (Py.truthy phone); [|apply Hnone].
  destruct (alert_msg _ inc) as [text|]; [|apply Hnone]. cbn.
  rewrite send_sms_alert_out. eexists. split; [done|].
  apply (calls_addressed _ true _ [_]).
Qed.

End outbox_facts.

(** X3: the calls made to the provider so far are never dropped or changed:
    a registration or a request to a gated route only appends to them, and it
    appends either nothing or exactly one call for each phone number that the
    request selects ([recipients]), in their order, each to that number or to
    its WhatsApp address: one call for a single recipient, one per selected
    volunteer or user for a broadcast, one to the assigned volunteer for
    /assign_tasks, and none on the other routes. *)
Theorem provider_calls_appended `{Env} (a : action) (w : world) (req : request) :
  ∃ calls,
    outbox (run a w req).2 = outbox w ++ calls
    ∧ (calls = [] ∨ Forall2 addressed_to calls (recipients a w req)).
Proof.
  assert (Hnone : ∀ l, ∃ calls, outbox w = outbox w ++ calls
                                ∧ (calls = [] ∨ Forall2 addressed_to calls l)).
  { intros l. exists []. rewrite app_nil_r. by split; [|left]. }
  destruct a as [|r]; cbn [run].
  { unfold register, insert_user. repeat case_match; cbn; apply Hnone. }
  unfold view, login_required, roles_required.
  destruct (negb (logged_in req)); [apply Hnone|].
  destruct (_ || _); [apply Hnone|].
  destruct r; cbn [body];
    try (unfold dashboard, report_incident, volunteer_tasks, update_task_status,
                resources_view, delete_resource, predict;
         repeat case_match; cbn; apply Hnone).
  - apply alerts_appends.
  - apply assign_tasks_appends.
Qed.

(** X4: without a Twilio client no request ever reaches the provider: the
    list of provider calls stays as it is under every registration and every
    request to a gated route. *)
Theorem no_client_no_call `{Env} (a : action) (w : world) (req : request) :
  twilio_client = false →
  outbox (run a w req).2 = outbox w.
Proof.
  intros Hoff. destruct a as [|r]; cbn [run].
  { unfold register, insert_user. repeat case_match; done. }
  unfold view, login_required, roles_required.
  destruct (negb (logged_in req)); [done|].
  destruct (_ || _); [done|].
  destruct r; cbn [body];
    unfold dashboard, alerts, report_incident, assign_tasks, volunteer_tasks,
           update_task_status, resources_view, delete_resource, predict;
    rewrite ?Hoff; repeat case_match; done.
Qed.

Lemma no_client_no_call_witness :
  @outbox DemoGateway.env_off
    (@run DemoGateway.env_off (Visit Alerts) DemoGateway.world_off DemoAlerts.broadcast).2
  = [].
Proof.
  apply (@no_client_no_call DemoGateway.env_off (Visit Alerts) DemoGateway.world_off
           DemoAlerts.broadcast eq_refl).
Defined.

Section failing_broadcast.
Context `{Env}.

(** When no call of [send_sms_alert] succeeds, only [failed_count] moves. *)
Lemma send_each_all_fail phones message wa sent failed out :
  (∀ p o, (send_sms_alert p message wa o).1.1 = false) →
  (send_each phones message wa sent failed out).1 = (sent, (failed + length phones)%nat).
Proof.
  intros Hfail. revert failed out.
  induction phones as [|p phones IH]; intros failed out; cbn.
  { f_equal. lia. }
  specialize (Hfail p out).
  destruct (send_sms_alert p message wa out) as [[ok msg] out']. cbn in Hfail. subst ok.
  rewrite IH. f_equal. lia.
Qed.

Lemma send_sms_alert_no_sms_sender p message out :
  twilio_client = true →
  TWILIO_SMS_FROM = "" →
  send_sms_alert p message false out = ((false, "No sender number configured"), out).
Proof. intros Hc Hfrom. unfold send_sms_alert. by rewrite Hc, Hfrom. Qed.

Lemma send_each_no_sms_sender phones message sent failed out :
  twilio_client = true →
  TWILIO_SMS_FROM = "" →
  send_each phones message false sent failed out
  = ((sent, (failed + length phones)%nat), out).
Proof.
  intros Hc Hfrom. revert failed.
  induction phones as [|p phones IH]; intros failed; cbn.
  { do 2 f_equal. lia. }
  rewrite send_sms_alert_no_sms_sender by done. rewrite IH. do 2 f_equal. lia.
Qed.

Lemma send_sms_alert_provider_down p message wa out :
  (∀ o m, ∃ e, messages_create o m = ApiError e) →
  (send_sms_alert p message wa out).1.1 = false.
Proof.
  intros Hdown.
  destruct (send_sms_alert_cases p message wa out)
    as [(Hflag & _)|(m & _ & _ & _ & _ & _ & Hflag)]; [done|].
  rewrite Hflag. by destruct (Hdown out m) as [e ->].
Qed.

End failing_broadcast.

(** X5: a broadcast to all users goes by SMS; when no SMS sender number is
    set (the default), the provider is not called, every user with a contact
    is counted as failed, and the page still shows a success message,
    "Alert sent to 0 users (N failed)".  Nothing changes. *)
Theorem all_users_without_sender `{Env} (w : world) (req : request) :
  method req = POST →
  twilio_client = true →
  TWILIO_SMS_FROM = "" →
  Py.truthy (Py.strip (form_get_or_empty req "message")) = true →
  form_get req "recipient_type" = Some "all_users" →
  user_contacts (db w) ≠ [] →
  alerts w req
  = (Render "alerts"
       (Some ("success",
              "Alert sent to 0 users (" +:+ pretty (length (user_contacts (db w)))
              +:+ " failed)")),
     w).
Proof.
  intros Hm Hc Hfrom Hmsg Hrt Hne. unfold alerts.
  rewrite Hm, Hmsg, Hc, Hrt. cbn [negb].
  rewrite !(bool_decide_false (Some "all_users" = Some _)) by done.
  rewrite bool_decide_true by done. cbn [andb].
  destruct (user_contacts (db w)) as [|p ps] eqn:Hps; [done|]. rewrite <- Hps.
  rewrite send_each_no_sms_sender by done.
  unfold all_users_message. rewrite bool_decide_true by (rewrite Hps; cbn; lia).
  by destruct w.
Qed.

Lemma all_users_without_sender_witness :
  @alerts Demo.env Demo.world0 DemoGateway.to_all_users
  = (Render "alerts" (Some ("success", "Alert sent to 0 users (4 failed)")),
     Demo.world0).
Proof.
  assert (Hne : @user_contacts Demo.env (@db Demo.env Demo.world0) ≠ [])
    by (vm_compute; discriminate).
  exact (@all_users_without_sender Demo.env Demo.world0 DemoGateway.to_all_users
           eq_refl eq_refl eq_refl eq_refl eq_refl Hne).
Defined.

(** X6: when the provider raises on every call, a broadcast to all
    volunteers still calls it once for each selected phone, and the page
    shows the error "Failed to send alerts to all N volunteers"; the database
    is not written. *)
Theorem all_volunteers_provider_down `{Env} (w : world) (req : request) :
  method req = POST →
  twilio_client = true →
  Py.truthy TWILIO_WHATSAPP_FROM = true →
  (∀ o m, ∃ e, messages_create o m = ApiError e) →
  Py.truthy (Py.strip (form_get_or_empty req "message")) = true →
  form_get req "recipient_type" = Some "all_volunteers" →
  volunteer_phones (db w) ≠ [] →
  alerts w req
  = (Render "alerts"
       (Some ("error",
              "Failed to send alerts to all "
              +:+ pretty (length (volunteer_phones (db w))) +:+ " volunteers")),
     World (db w)
           (outbox w
            ++ (whatsapp_call (Py.strip (form_get_or_empty req "message"))
                  <$> volunteer_phones (db w)))).
Proof.
  intros Hm Hc Hfrom Hdown Hmsg Hrt Hne. unfold alerts.
  rewrite Hm, Hmsg, Hc, Hrt. cbn [negb].
  rewrite !(bool_decide_false (Some "all_volunteers" = Some _)) by done.
  rewrite bool_decide_true by done. cbn [andb].
  destruct (volunteer_phones (db w)) as [|p ps] eqn:Hps; [done|]. rewrite <- Hps.
  pose proof (send_each_all_fail (volunteer_phones (db w))
                (Py.strip (form_get_or_empty req "message")) true 0 0 (outbox w)
                (λ p o, send_sms_alert_provider_down p _ true o Hdown)) as Hcount.
  pose proof (send_each_calls (volunteer_phones (db w))
                (Py.strip (form_get_or_empty req "message")) 0 0 (outbox w) Hc Hfrom)
    as Hcalls.
  destruct (send_each _ _ true _ _ _) as [[sent failed] out].
  cbn in Hcount, Hcalls. injection Hcount as -> ->. subst out.
  unfold all_volunteers_message. by rewrite bool_decide_false by lia.
Qed.

Lemma all_volunteers_provider_down_witness :
  (@alerts DemoGateway.env_failing DemoGateway.world_failing DemoAlerts.broadcast).1
  = Render "alerts" (Some ("error", "Failed to send alerts to all 4 volunteers")).
Proof.
  assert (Hne : @volunteer_phones DemoGateway.env_failing
                  (@db DemoGateway.env_failing DemoGateway.world_failing) ≠ [])
    by (vm_compute; discriminate).
  rewrite (@all_volunteers_provider_down DemoGateway.env_failing
             DemoGateway.world_failing DemoAlerts.broadcast
             eq_refl eq_refl eq_refl (λ _ _, ex_intro _ "HTTP 503" eq_refl)
             eq_refl eq_refl Hne).
  reflexivity.
Defined.

(** ** Sessions *)

(** X7: a request without a logged-in user to any gated route is redirected
    to the login page (it is not answered with 403), and nothing changes. *)
Theorem anonymous_redirected `{Env} (r : route) (w : world) (req : request) :
  session req = None →
  view r w req = (Redirect "login", w).
Proof.
  intros Hanon. unfold view, login_required, logged_in. rewrite Hanon.
  rewrite bool_decide_false; [done|]. by intros [u Hu].
Qed.

Lemma anonymous_redirected_witness :
  @view Demo.env Dashboard Demo.world0 DemoSession.anonymous
  = (Redirect "login", Demo.world0).
Proof.
  exact (@anonymous_redirected Demo.env Dashboard Demo.world0 DemoSession.anonymous
           eq_refl).
Defined.

(** X8: [index] never sends a logged-in user to a page that would answer
    403: it redirects admin, reporter, coordinator and viewer to the
    dashboard and a volunteer to the volunteer's tasks, both of which let
    that role in; a user with any other role is sent back to the login
    page. *)
Theorem index_lands_permitted `{Env} (req : request) u :
  session req = Some u →
  ∃ e, index req = RedirectTo e
       ∧ match route_of_endpoint e with
         | Some r => ∀ w, view r w req = body r w req
         | None => e = "login" ∧ su_role u ∉ ROLES
         end.
Proof.
  intros Hu. unfold index. rewrite Hu.
  case_bool_decide as Hfour.
  { exists "dashboard". split; [done|]. cbn. intros w.
    apply (view_permitted Dashboard w req u Hu). exact Hfour. }
  case_bool_decide as Hvol.
  { exists "volunteer_tasks". split; [done|]. cbn. intros w.
    apply (view_permitted VolunteerTasks w req u Hu). cbn. rewrite Hvol.
    apply list_elem_of_here. }
  exists "login". split; [done|]. cbn. split; [done|].
  unfold ROLES. intros Hin. apply Hfour.
  repeat (apply elem_of_cons in Hin as [Hin|Hin]; [rewrite Hin; set_solver|]).
  by apply elem_of_nil in Hin.
Qed.

Lemma index_lands_permitted_witness :
  index DemoSession.as_volunteer = RedirectTo "volunteer_tasks"
  ∧ @view Demo.env VolunteerTasks Demo.world0 DemoSession.as_volunteer
    = @body Demo.env VolunteerTasks Demo.world0 DemoSession.as_volunteer.
Proof.
  destruct (@index_lands_permitted Demo.env DemoSession.as_volunteer Demo.volunteer1
              eq_refl) as (e & He & Hroute).
  assert (e = "volunteer_tasks") as -> by (cbv in He; congruence).
  split; [exact He|]. exact (Hroute Demo.world0).
Defined.

Section login_facts.
Context `{Env}.

(** The row that [select_user] returns is a row of the table with that
    username. *)
Lemma select_user_Some name (t : gmap Z user) k u :
  select_user name t = Some (k, u) → t !! k = Some u ∧ username u = name.
Proof.
  unfold select_user. intros Hhead. apply head_Some_elem_of in Hhead.
  apply list_elem_of_filter in Hhead as [Hname Hin].
  rewrite rows_Permutation in Hin. by apply elem_of_map_to_list in Hin.
Qed.

Lemma select_user_None name (t : gmap Z user) :
  ¬ has_username name t → select_user name t = None.
Proof.
  intros Hno. destruct (select_user name t) as [[k u]|] eqn:Hsel; [|done].
  apply select_user_Some in Hsel as [Hk Hname]. destruct Hno. by exists k, u.
Qed.

(** With one row of that username only, [select_user] returns it. *)
Lemma select_user_unique name (t : gmap Z user) k u :
  t !! k = Some u →
  username u = name →
  (∀ k' u', t !! k' = Some u' → username u' = name → k' = k) →
  select_user name t = Some (k, u).
Proof.
  intros Hk Hname Huniq. unfold select_user.
  assert (Hperm : filter (λ kv : Z * user, username kv.2 = name) (Sql.rows t) ≡ₚ [(k, u)]).
  { apply NoDup_Permutation.
    - apply NoDup_filter. rewrite rows_Permutation. apply NoDup_map_to_list.
    - apply NoDup_singleton.
    - intros [k' u']. rewrite list_elem_of_filter, rows_Permutation,
        elem_of_map_to_list, list_elem_of_singleton. cbn. split.
      + intros [Hn Hk']. assert (k' = k) as -> by eauto. congruence.
      + intros [= -> ->]. done. }
  apply Permutation_singleton_r in Hperm. by rewrite Hperm.
Qed.

End login_facts.

(** X9: registration and login fit together: after a successful
    registration, a login with the stripped username and the stripped
    password is accepted, and the session then holds the rowid, the username,
    the role and the contact of the new user row. *)
Theorem register_then_login `{Env} (w : world) (req req' : request) :
  method req = POST →
  Py.truthy (Py.strip (form_get_or_empty req "username")) = true →
  Py.truthy (Py.strip (form_get_or_empty req "password")) = true →
  Py.truthy (Py.strip (form_get_or_empty req "role")) = true →
  ¬ has_username (Py.strip (form_get_or_empty req "username")) (users (db w)) →
  method req' = POST →
  form_get_or_empty req' "username" = Py.strip (form_get_or_empty req "username") →
  form_get_or_empty req' "password" = Py.strip (form_get_or_empty req "password") →
  ∃ k,
    users (db w) !! k = None
    ∧ login (register w req).2 req'
      = (RedirectTo "index",
         Some (SessionUser k (Py.strip (form_get_or_empty req "username"))
                           (Py.strip (form_get_or_empty req "role"))
                           (Some (Py.strip (form_get_or_empty req "contact"))))).
Proof.
  intros Hm Hu Hp Hr Hfresh Hm' Hu' Hp'.
  exists (Sql.next_rowid (users (db w))). split; [apply next_rowid_fresh|].
  unfold register, insert_user. rewrite Hm, Hu, Hp, Hr. cbn [negb orb username].
  rewrite decide_False by done. cbn [snd].
  unfold login. rewrite Hm', Hu', Hp'. cbn [db users with_users].
  rewrite (select_user_unique _ _ (Sql.next_rowid (users (db w)))
             (User (Py.strip (form_get_or_empty req "username"))
                   (sha256_hex (Py.strip (form_get_or_empty req "password")))
                   (Py.strip (form_get_or_empty req "role"))
                   (Some (Py.strip (form_get_or_empty req "contact"))))).
  - cbn. by rewrite String.eqb_refl.
  - apply lookup_insert_eq.
  - done.
  - intros k' u' Hk' Hname. unfold Sql.insert_row in Hk'.
    destruct (decide (Sql.next_rowid (users (db w)) = k')) as [->|Hne]; [done|].
    rewrite lookup_insert_ne in Hk' by done.
    destruct Hfresh. by exists k', u'.
Qed.

Lemma register_then_login_witness :
  ∃ k,
    @login Demo.env (@register Demo.env Demo.world0 DemoSession.sign_up).2
      DemoSession.sign_in
    = (RedirectTo "index", Some (SessionUser k "eve" "reporter" (Some "+100"))).
Proof.
  assert (Hfresh : ¬ has_username
            (Py.strip (form_get_or_empty DemoSession.sign_up "username"))
            (@users Demo.env (@db Demo.env Demo.world0))).
  { apply (bool_decide_unpack _). vm_compute. reflexivity. }
  destruct (@register_then_login Demo.env Demo.world0 DemoSession.sign_up
              DemoSession.sign_in eq_refl eq_refl eq_refl eq_refl Hfresh
              eq_refl eq_refl eq_refl) as (k & _ & Hlogin).
  exists k. rewrite Hlogin. vm_compute. reflexivity.
Defined.

(** X10: [login] accepts only stored credentials: when it redirects to
    [index], some user row has exactly the submitted (unstripped) username
    and the SHA-256 of the submitted password as its hash, and the new
    session holds the rowid, username, role and contact of that row. *)
Theorem login_sound `{Env} (w : world) (req : request) :
  (login w req).1 = RedirectTo "index" →
  ∃ k u,
    users (db w) !! k = Some u
    ∧ username u = form_get_or_empty req "username"
    ∧ password_hash u = sha256_hex (form_get_or_empty req "password")
    ∧ (login w req).2 = Some (SessionUser k (username u) (role u) (contact u)).
Proof.
  unfold login. destruct (method req); [done|].
  destruct (select_user _ _) as [[k u]|] eqn:Hsel; [|done].
  destruct (String.eqb_spec (sha256_hex (form_get_or_empty req "password"))
              (password_hash u)) as [Hhash|]; [|done].
  intros _. apply select_user_Some in Hsel as [Hk Hname]. by exists k, u.
Qed.

Lemma login_sound_witness :
  ∃ k u,
    @users Demo.env (@db Demo.env Demo.world0) !! k = Some u
    ∧ username u = "admin"
    ∧ role u = "admin".
Proof.
  destruct (@login_sound Demo.env Demo.world0
              (Demo.post None [("username", "admin"); ("password", "admin123")])
              eq_refl) as (k & u & Hk & Hname & _ & Hsess).
  exists k, u. split; [exact Hk|]. split; [exact Hname|].
  assert (Hrun : (@login Demo.env Demo.world0
                    (Demo.post None [("username", "admin"); ("password", "admin123")])).2
                 = Some (SessionUser 1 "admin" "admin" (Some "+1234567890")))
    by (vm_compute; reflexivity).
  rewrite Hrun in Hsess. injection Hsess as _ _ Hrole _. by symmetry.
Defined.

(** X11: [login] looks the username up as it was submitted: when no user row
    has exactly that username (a registered name with spaces around it, for
    one), the login page comes back with "Invalid credentials" and the
    session is left as it was. *)
Theorem login_unknown_username `{Env} (w : world) (req : request) :
  method req = POST →
  ¬ has_username (form_get_or_empty req "username") (users (db w)) →
  login w req = (LoginPage (Some "Invalid credentials"), session req).
Proof.
  intros Hm Hno. unfold login. rewrite Hm. by rewrite select_user_None.
Qed.

Lemma login_unknown_username_witness :
  @login Demo.env (@register Demo.env Demo.world0 DemoSession.sign_up).2
    DemoSession.sign_in_unstripped
  = (LoginPage (Some "Invalid credentials"), None).
Proof.
  apply (@login_unknown_username Demo.env
           (@register Demo.env Demo.world0 DemoSession.sign_up).2
           DemoSession.sign_in_unstripped eq_refl).
  apply (bool_decide_unpack _). vm_compute. reflexivity.
Defined.

(** ** Tasks and resources at the edges *)

Section store_facts.
Context `{Env}.

Lemma with_tasks_same f (s : store) : f (tasks s) = tasks s → with_tasks f s = s.
Proof. destruct s. unfold with_tasks. cbn. by intros ->. Qed.

Lemma with_incidents_same f (s : store) :
  f (incidents s) = incidents s → with_incidents f s = s.
Proof. destruct s. unfold with_incidents. cbn. by intros ->. Qed.

Lemma with_resources_same f (s : store) :
  f (resources s) = resources s → with_resources f s = s.
Proof. destruct s. unfold with_resources. cbn. by intros ->. Qed.

Lemma with_users_same f (s : store) : f (users s) = users s → with_users f s = s.
Proof. destruct s. unfold with_users. cbn. by intros ->. Qed.

Lemma world_eta (w : world) : World (db w) (outbox w) = w.
Proof. by destruct w. Qed.

(** The first UPDATE changes nothing when the task id selects no row. *)
Lemma update_own_task_unknown status task_id uid (t : gmap Z task) :
  Sql.by_text_id task_id t = None →
  update_own_task status task_id uid t = t.
Proof.
  unfold Sql.by_text_id, update_own_task.
  destruct task_id as [s|]; [|done]. destruct (sql_rowid s) as [k|]; [|done].
  destruct (t !! k) eqn:Hk; [done|]. intros _. by apply alter_id'.
Qed.

End store_facts.

(** X12: a POST to /update_task_status whose task_id selects no task ends
    in an unhandled TypeError ([cur.fetchone()] is None); the UPDATE before
    it has matched no row, so nothing has changed. *)
Theorem update_task_status_unknown_task `{Env} (w : world) (req : request) u :
  session req = Some u →
  Sql.by_text_id (form_get req "task_id") (tasks (db w)) = None →
  update_task_status w req = (Unhandled Py.TypeError, w).
Proof.
  intros Hu Hnone. unfold update_task_status. rewrite Hu.
  rewrite (with_tasks_same _ (db w)) by by apply update_own_task_unknown.
  by rewrite Hnone, world_eta.
Qed.

Lemma update_task_status_unknown_task_witness :
  @update_task_status Demo.env DemoTasks.world1 DemoEdge.no_such_task
  = (Unhandled Py.TypeError, DemoTasks.world1).
Proof.
  exact (@update_task_status_unknown_task Demo.env DemoTasks.world1
           DemoEdge.no_such_task Demo.volunteer1 eq_refl eq_refl).
Defined.

(** X13: the submitted status is not checked: when it is none of 'closed',
    'in_progress' and 'open' (or is missing), the volunteer's own task still
    takes it as its status, and the incidents table is left as it was. *)
Theorem update_task_status_unmirrored `{Env} (w : world) (req : request) u k t :
  session req = Some u →
  Sql.by_text_id (form_get req "task_id") (tasks (db w)) = Some (k, t) →
  volunteer_id t = su_id u →
  form_get req "status" ∉ [Some "closed"; Some "in_progress"; Some "open"] →
  (update_task_status w req).1 = Redirect "volunteer_tasks"
  ∧ tasks (db (update_task_status w req).2)
    = <[k := set_task_status (form_get req "status") t]> (tasks (db w))
  ∧ incidents (db (update_task_status w req).2) = incidents (db w).
Proof.
  intros Hu Hk Hown Hst.
  rewrite (update_task_status_found w req u k t Hu Hk). cbn.
  rewrite decide_True by done. split; [done|]. split; [done|].
  unfold mirror_status.
  assert (Hne : ∀ st, st ∈ [Some "closed"; Some "in_progress"; Some "open"] →
                      form_get req "status" ≠ st).
  { intros st Hin Heq. apply Hst. by rewrite Heq. }
  by rewrite !bool_decide_false by (apply Hne; set_solver).
Qed.

Lemma update_task_status_unmirrored_witness :
  task_status <$>
    @tasks Demo.env
      (@db Demo.env (@update_task_status Demo.env DemoTasks.world1 DemoEdge.odd_status).2)
      !! 1
  = Some (Some "done")
  ∧ @incidents Demo.env
      (@db Demo.env (@update_task_status Demo.env DemoTasks.world1 DemoEdge.odd_status).2)
    = @incidents Demo.env (@db Demo.env DemoTasks.world1).
Proof.
  assert (Hst : form_get DemoEdge.odd_status "status"
                ∉ [Some "closed"; Some "in_progress"; Some "open"]).
  { apply (bool_decide_unpack _). vm_compute. reflexivity. }
  destruct (@update_task_status_unmirrored Demo.env DemoTasks.world1 DemoEdge.odd_status
              Demo.volunteer1 1 DemoTasks.task1 eq_refl eq_refl eq_refl Hst)
    as (_ & Htasks & Hinc).
  split; [|exact Hinc]. rewrite Htasks. by rewrite lookup_insert_eq.
Defined.



(** X15: deleting a resource id that has no row is not an error: the
    request is redirected to the resources page and nothing changes. *)
Theorem delete_resource_unknown `{Env} (w : world) (req : request) resource_id :
  resources (db w) !! resource_id = None →
  delete_resource resource_id w req = (Redirect "resources", w).
Proof.
  intros Hnone. unfold delete_resource.
  rewrite (with_resources_same _ (db w)) by by apply delete_id.
  by rewrite world_eta.
Qed.

Lemma delete_resource_unknown_witness :
  @delete_resource Demo.env 77 Demo.world0 DemoEdge.add_resource
  = (Redirect "resources", Demo.world0).
Proof.
  exact (@delete_resource_unknown Demo.env Demo.world0 DemoEdge.add_resource 77 eq_refl).
Defined.

(** ** Invariants of the database *)

Section history_facts.
Context `{Env}.

Lemma update_task_status_write (w : world) (req : request) :
  db_write (db w) (db (update_task_status w req).2).
Proof.
  destruct (session req) as [u|] eqn:Hu.
  2:{ unfold update_task_status. rewrite Hu. constructor. }
  destruct (Sql.by_text_id (form_get req "task_id") (tasks (db w))) as [[k t]|] eqn:Hk.
  - rewrite (update_task_status_found w req u k t Hu Hk). cbn [snd db].
    destruct (by_text_id_Some _ _ _ _ Hk) as (_ & _ & _ & Ht).
    pose proof (write_status (db w) (form_get req "status") k (su_id u) t Ht) as Hw.
    unfold with_tasks in *. by rewrite (alter_lookup_Some _ _ _ _ Ht) in Hw.
  - unfold update_task_status. rewrite Hu.
    rewrite (with_tasks_same _ (db w)) by by apply update_own_task_unknown.
    rewrite Hk. constructor.
Qed.

(** Every registration and every request to a gated route writes to the
    database in one of the ways of [db_write]. *)
Lemma run_db_write (a : action) (w : world) (req : request) :
  db_write (db w) (db (run a w req).2).
Proof.
  destruct a as [|r]; cbn [run].
  { unfold register, insert_user. destruct (method req); [constructor|].
    destruct (_ || _); [constructor|].
    case_decide as Hdup; [constructor|]. cbn. by apply write_user. }
  unfold view, login_required, roles_required.
  destruct (negb (logged_in req)); [constructor|].
  destruct (_ || _); [constructor|].
  destruct r; cbn [body].
  - constructor.
  - destruct (alerts_appends w req) as [-> _]. constructor.
  - unfold report_incident.
    repeat case_match; first [apply write_nothing | cbn; by apply write_incident].
  - unfold assign_tasks. destruct (method req); [constructor|].
    destruct (Sql.by_text_id _ (incidents _)) as [[i inc]|] eqn:Hi; [|constructor].
    destruct (Sql.by_text_id _ (volunteers _)) as [[v vol]|] eqn:Hv; [|constructor].
    cbn. apply by_text_id_Some in Hi as (_ & _ & _ & Hi).
    apply by_text_id_Some in Hv as (_ & _ & _ & Hv).
    by eapply write_assignment.
  - unfold volunteer_tasks. destruct (session req); constructor.
  - apply update_task_status_write.
  - unfold resources_view. destruct (method req); [constructor|]. cbn.
    apply write_resources.
  - cbn. apply write_resources.
  - constructor.
Qed.

(** A property of the database that holds after the first start, that a
    restart keeps and that every write keeps, holds in every reached world. *)
Lemma reached_ind_db (P : store → Prop) :
  (∀ clock, P (init_db clock empty_store)) →
  (∀ clock s, P s → P (init_db clock s)) →
  (∀ s s', P s → db_write s s' → P s') →
  ∀ w, reached w → P (db w).
Proof.
  intros Hstart Hrestart Hwrite w Hw.
  induction Hw as [clock|w clock _ IH|w a req _ IH]; cbn [db].
  - apply Hstart.
  - by apply Hrestart.
  - eapply Hwrite; [exact IH|apply run_db_write].
Qed.

Lemma seed_lookup {A} (rows : list A) (t : gmap Z A) k x :
  t !! k = Some x → seed rows t !! k = Some x.
Proof.
  intros Hk. unfold seed. case_decide as Hsize; [|done].
  apply map_size_empty_inv in Hsize. subst t. by rewrite lookup_empty in Hk.
Qed.

Lemma insert_rows_Forall {A} (P : A → Prop) (rows : list A) (t : gmap Z A) :
  map_Forall (λ _, P) t → Forall P rows → map_Forall (λ _, P) (Sql.insert_rows rows t).
Proof.
  intros Ht Hrows. revert t Ht.
  induction Hrows as [|x rows Hx _ IH]; intros t Ht; [done|].
  apply IH. by apply map_Forall_insert_2.
Qed.

Lemma seed_Forall {A} (P : A → Prop) (rows : list A) (t : gmap Z A) :
  map_Forall (λ _, P) t → Forall P rows → map_Forall (λ _, P) (seed rows t).
Proof.
  intros Ht Hrows. unfold seed. case_decide; [|done]. by apply insert_rows_Forall.
Qed.

End history_facts.

Section invariant_facts.
Context `{Env}.

Lemma mirror_status_None st i (t : gmap Z incident) j :
  mirror_status st i t !! j = None ↔ t !! j = None.
Proof.
  unfold mirror_status. repeat case_bool_decide; by rewrite ?lookup_alter_None.
Qed.

Lemma mirror_status_is_Some st i (t : gmap Z incident) j :
  is_Some (t !! j) → is_Some (mirror_status st i t !! j).
Proof.
  rewrite <- !not_eq_None_Some. by rewrite mirror_status_None.
Qed.

Lemma alter_status_valid st i (t : gmap Z incident) :
  st ∈ INCIDENT_STATUS →
  map_Forall (λ _ inc, inc_status inc ∈ INCIDENT_STATUS) t →
  map_Forall (λ _ inc, inc_status inc ∈ INCIDENT_STATUS) (alter (set_inc_status st) i t).
Proof.
  intros Hst Ht j inc'. rewrite lookup_alter. case_decide as Hij.
  - destruct (t !! i) as [inc|]; [|done]. cbn. by intros [= <-].
  - apply Ht.
Qed.

Lemma mirror_status_valid st i (t : gmap Z incident) :
  map_Forall (λ _ inc, inc_status inc ∈ INCIDENT_STATUS) t →
  map_Forall (λ _ inc, inc_status inc ∈ INCIDENT_STATUS) (mirror_status st i t).
Proof.
  intros Ht. unfold mirror_status, INCIDENT_STATUS in *.
  repeat case_bool_decide; try done; apply alter_status_valid; try done;
    unfold INCIDENT_STATUS; set_solver.
Qed.

Lemma seed_incidents_status now :
  Forall (λ inc, inc_status inc ∈ INCIDENT_STATUS) (seed_incidents now).
Proof. unfold seed_incidents, INCIDENT_STATUS. repeat constructor; cbn; set_solver. Qed.

Lemma names_unique_insert_row u (t : gmap Z user) :
  names_unique t → ¬ has_username (username u) t → names_unique (Sql.insert_row u t).
Proof.
  intros Ht Hfresh k1 k2 u1 u2. unfold Sql.insert_row.
  rewrite !lookup_insert. repeat case_decide; subst; try done.
  - intros [= <-] Hk2 Hname. destruct Hfresh. by exists k2, u2.
  - intros Hk1 [= <-] Hname. destruct Hfresh. by exists k1, u1.
  - apply Ht.
Qed.

Lemma has_username_insert_row name u (t : gmap Z user) :
  has_username name (Sql.insert_row u t) → username u = name ∨ has_username name t.
Proof.
  intros (k & u' & Hk & Hname). unfold Sql.insert_row in Hk.
  rewrite lookup_insert in Hk. case_decide.
  - left. by injection Hk as <-.
  - right. by exists k, u'.
Qed.

Lemma names_unique_insert_rows rows (t : gmap Z user) :
  names_unique t →
  NoDup (username <$> rows) →
  (∀ u, u ∈ rows → ¬ has_username (username u) t) →
  names_unique (Sql.insert_rows rows t).
Proof.
  revert t. induction rows as [|u rows IH]; intros t Ht Hnd Hfresh; [done|].
  cbn in Hnd. apply NoDup_cons in Hnd as [Hu Hnd]. cbn.
  apply IH; [|done|].
  - apply names_unique_insert_row; [done|]. apply Hfresh. left.
  - intros u' Hu' Hex. apply has_username_insert_row in Hex as [Heq|Hex].
    + apply Hu. rewrite Heq. by apply list_elem_of_fmap_2.
    + eapply Hfresh; [|done]. by right.
Qed.

Lemma seed_users_names_unique : names_unique (seed seed_users ∅).
Proof.
  unfold seed. rewrite decide_True by done.
  apply names_unique_insert_rows.
  - intros k1 k2 u1 u2 Hk1. by rewrite lookup_empty in Hk1.
  - cbn.
    repeat (apply NoDup_cons; split;
            [intros Hin;
             repeat (apply elem_of_cons in Hin as [Hin|Hin]; [discriminate|]);
             by apply elem_of_nil in Hin|]).
    apply NoDup_nil_2.
  - intros u _ (k & u' & Hk & _). by rewrite lookup_empty in Hk.
Qed.

End invariant_facts.

(** X16: in every world reached from the first start by restarts,
    registrations and requests, each task row references an incident row and
    a volunteer row that exist: tasks are only created for rows found by
    lookup, and no incident or volunteer row is ever deleted. *)
Theorem reached_tasks_reference `{Env} (w : world) k t :
  reached w →
  tasks (db w) !! k = Some t →
  is_Some (incidents (db w) !! incident_id t)
  ∧ is_Some (volunteers (db w) !! volunteer_id t).
Proof.
  intros Hw. revert k t.
  apply (reached_ind_db
           (λ s, ∀ k t, tasks s !! k = Some t →
                        is_Some (incidents s !! incident_id t)
                        ∧ is_Some (volunteers s !! volunteer_id t))); [| | |done].
  - intros clock k t Hk. cbn in Hk. by rewrite lookup_empty in Hk.
  - intros clock s IH k t Hk. cbn in *.
    destruct (IH k t Hk) as [[inc Hinc] [vol Hvol]].
    split; eexists; by apply seed_lookup.
  - intros s s' IH Hwrite k t.
    destruct Hwrite as [s|s u Hu|s row Hrow|s i inc v vol at_ Hi Hv|s st k0 uid t0 Hk0|s f];
      cbn; try (by apply IH).
    + intros Hk. destruct (IH k t Hk) as [[inc Hinc] Hvol].
      split; [|done]. eexists. by apply insert_row_lookup_old.
    + unfold Sql.insert_row. rewrite lookup_insert. case_decide as Hnew.
      * intros [= <-]. cbn. split; [|by eexists].
        apply lookup_alter_is_Some. by eexists.
      * intros Hk. destruct (IH k t Hk) as [Hinc Hvol]. split; [|done].
        by apply lookup_alter_is_Some.
    + rewrite lookup_alter. case_decide as Hsame.
      * subst k0. rewrite Hk0. cbn. intros [= <-].
        destruct (IH k t0 Hk0) as [Hinc Hvol].
        assert (incident_id (if decide (volunteer_id t0 = uid)
                             then set_task_status st t0 else t0) = incident_id t0
                ∧ volunteer_id (if decide (volunteer_id t0 = uid)
                                then set_task_status st t0 else t0) = volunteer_id t0)
          as [-> ->] by (by destruct (decide _)).
        split; [|done]. by apply mirror_status_is_Some.
      * intros Hk. destruct (IH k t Hk) as [Hinc Hvol]. split; [|done].
        by apply mirror_status_is_Some.
Qed.

Lemma reached_tasks_reference_witness :
  is_Some (@incidents Demo.env (@db Demo.env DemoTasks.world1) !! 1)
  ∧ is_Some (@volunteers Demo.env (@db Demo.env DemoTasks.world1) !! 3).
Proof.
  assert (Hreached : @reached Demo.env DemoTasks.world1).
  { apply (@reached_request Demo.env _ (Visit AssignTasks)
             (Demo.post (Some Demo.admin) [("incident_id", "2"); ("volunteer_id", "2")])).
    apply (@reached_request Demo.env _ (Visit AssignTasks)
             (Demo.post (Some Demo.admin) [("incident_id", "1"); ("volunteer_id", "3")])).
    apply (@reached_first_start Demo.env 0). }
  exact (@reached_tasks_reference Demo.env DemoTasks.world1 1 DemoTasks.task1
           Hreached eq_refl).
Defined.

(** X17: in every reached world the status of each incident is one of
    'open', 'in_progress' and 'closed', although the status submitted to
    /update_task_status is not checked: only these three literals are ever
    written to an incident. *)
Theorem reached_incident_status `{Env} (w : world) k inc :
  reached w →
  incidents (db w) !! k = Some inc →
  inc_status inc ∈ INCIDENT_STATUS.
Proof.
  intros Hw. revert k inc.
  apply (reached_ind_db
           (λ s, map_Forall (λ _ inc, inc_status inc ∈ INCIDENT_STATUS) (incidents s)));
    [| | |done].
  - intros clock. cbn. apply seed_Forall; [apply map_Forall_empty|].
    apply seed_incidents_status.
  - intros clock s IH. cbn. by apply seed_Forall; [|apply seed_incidents_status].
  - intros s s' IH Hwrite.
    destruct Hwrite as [s|s u Hu|s row Hrow|s i inc v vol at_ Hi Hv|s st k0 uid t0 Hk0|s f];
      cbn; try done.
    + apply map_Forall_insert_2; [|done]. rewrite Hrow. apply list_elem_of_here.
    + apply alter_status_valid; [|done]. unfold INCIDENT_STATUS. set_solver.
    + by apply mirror_status_valid.
Qed.

Lemma reached_incident_status_witness :
  @inc_status Demo.env DemoTasks.incident1 ∈ INCIDENT_STATUS.
Proof.
  assert (Hreached : @reached Demo.env DemoTasks.world1).
  { apply (@reached_request Demo.env _ (Visit AssignTasks)
             (Demo.post (Some Demo.admin) [("incident_id", "2"); ("volunteer_id", "2")])).
    apply (@reached_request Demo.env _ (Visit AssignTasks)
             (Demo.post (Some Demo.admin) [("incident_id", "1"); ("volunteer_id", "3")])).
    apply (@reached_first_start Demo.env 0). }
  exact (@reached_incident_status Demo.env DemoTasks.world1 1 DemoTasks.incident1
           Hreached eq_refl).
Defined.

(** X18: in every reached world no two user rows have the same username:
    the default users have different names, and [register] inserts a row only
    when no row has its username. *)
Theorem reached_usernames_unique `{Env} (w : world) :
  reached w → names_unique (users (db w)).
Proof.
  apply (reached_ind_db (λ s, names_unique (users s))).
  - intros clock. cbn. apply seed_users_names_unique.
  - intros clock s IH. cbn. unfold seed. case_decide as Hsize; [|done].
    apply map_size_empty_inv in Hsize. rewrite Hsize.
    pose proof seed_users_names_unique as Hseed. unfold seed in Hseed.
    by rewrite decide_True in Hseed.
  - intros s s' IH Hwrite.
    destruct Hwrite as [s|s u Hu|s row Hrow|s i inc v vol at_ Hi Hv|s st k0 uid t0 Hk0|s f];
      cbn; try done.
    by apply names_unique_insert_row.
Qed.

Lemma reached_usernames_unique_witness :
  names_unique
    (@users Demo.env (@db Demo.env (@register Demo.env Demo.world0 DemoSession.sign_up).2)).
Proof.
  apply (@reached_usernames_unique Demo.env
           (@run Demo.env Register Demo.world0 DemoSession.sign_up).2).
  apply (@reached_request Demo.env Demo.world0 Register DemoSession.sign_up).
  apply (@reached_first_start Demo.env 0).
Defined.

(** ** What a request keeps, and what a restart adds *)

Section keep_facts.
Context `{Env}.

Lemma set_inc_status_same (inc : incident) : set_inc_status (inc_status inc) inc = inc.
Proof. by destruct inc. Qed.

Lemma set_task_status_same (t : task) : set_task_status (task_status t) t = t.
Proof. by destruct t. Qed.

Lemma alter_status_lookup st i (t : gmap Z incident) k inc :
  t !! k = Some inc →
  ∃ st', alter (set_inc_status st) i t !! k = Some (set_inc_status st' inc).
Proof.
  intros Hk. rewrite lookup_alter. case_decide as Hik.
  - subst i. rewrite Hk. by exists st.
  - exists (inc_status inc). by rewrite set_inc_status_same.
Qed.

Lemma mirror_status_lookup st i (t : gmap Z incident) k inc :
  t !! k = Some inc →
  ∃ st', mirror_status st i t !! k = Some (set_inc_status st' inc).
Proof.
  intros Hk. unfold mirror_status.
  repeat case_bool_decide; try by apply alter_status_lookup.
  exists (inc_status inc). by rewrite set_inc_status_same.
Qed.

Lemma db_write_keeps (s s' : store) :
  db_write s s' →
  (∀ k u, users s !! k = Some u → users s' !! k = Some u)
  ∧ (∀ k inc, incidents s !! k = Some inc →
       ∃ st, incidents s' !! k = Some (set_inc_status st inc))
  ∧ (∀ k t, tasks s !! k = Some t →
       ∃ st, tasks s' !! k = Some (set_task_status st t))
  ∧ volunteers s' = volunteers s
  ∧ hospitals s' = hospitals s
  ∧ shelters s' = shelters s.
Proof.
  assert (Hinc : ∀ (t : gmap Z incident) k inc,
             t !! k = Some inc → ∃ st, t !! k = Some (set_inc_status st inc)).
  { intros t k inc Hk. exists (inc_status inc). by rewrite set_inc_status_same. }
  assert (Htask : ∀ (t : gmap Z task) k row,
             t !! k = Some row → ∃ st, t !! k = Some (set_task_status st row)).
  { intros t k row Hk. exists (task_status row). by rewrite set_task_status_same. }
  intros [s0|s0 u Hu|s0 row Hrow|s0 i inc v vol at_ Hi Hv|s0 st k0 uid t0 Hk0|s0 f];
    cbn; repeat split; try done; try (intros; by apply Hinc); try (intros; by apply Htask).
  - intros k u' Hk. by apply insert_row_lookup_old.
  - intros k inc Hk. apply Hinc. by apply insert_row_lookup_old.
  - intros k inc' Hk. by apply alter_status_lookup.
  - intros k t Hk. apply Htask. by apply insert_row_lookup_old.
  - intros k inc Hk. by apply mirror_status_lookup.
  - intros k t Hk. rewrite lookup_alter. case_decide as Hsame.
    + subst k0. rewrite Hk. cbn. destruct (decide _).
      * by exists st.
      * exists (task_status t). by rewrite set_task_status_same.
    + by apply Htask.
Qed.

Lemma insert_rows_size {A} (rows : list A) (t : gmap Z A) :
  size (Sql.insert_rows rows t) = (size t + length rows)%nat.
Proof.
  revert t. induction rows as [|row rows IH]; intros t; [cbn; lia|].
  change (Sql.insert_rows (row :: rows) t)
    with (Sql.insert_rows rows (Sql.insert_row row t)).
  rewrite IH, insert_row_size. cbn. lia.
Qed.

Lemma seed_seed {A} (rows1 rows2 : list A) (t : gmap Z A) :
  rows1 ≠ [] → seed rows2 (seed rows1 t) = seed rows1 t.
Proof.
  intros Hrows. unfold seed at 1. case_decide as Hsize; [|done].
  unfold seed in Hsize. case_decide as Ht.
  - rewrite insert_rows_size in Hsize. destruct rows1; [done|]. cbn in Hsize. lia.
  - done.
Qed.

End keep_facts.

(** X19: no registration and no request to a gated route deletes or rewrites
    a user row, deletes an incident or a task, or changes anything of an
    incident or a task but its status; and none writes to the volunteers, the
    hospitals or the shelters.  (Rows of [resources] are what DELETE is used
    on.) *)
Theorem request_keeps_rows `{Env} (a : action) (w : world) (req : request) :
  (∀ k u, users (db w) !! k = Some u → users (db (run a w req).2) !! k = Some u)
  ∧ (∀ k inc, incidents (db w) !! k = Some inc →
       ∃ st, incidents (db (run a w req).2) !! k = Some (set_inc_status st inc))
  ∧ (∀ k t, tasks (db w) !! k = Some t →
       ∃ st, tasks (db (run a w req).2) !! k = Some (set_task_status st t))
  ∧ volunteers (db (run a w req).2) = volunteers (db w)
  ∧ hospitals (db (run a w req).2) = hospitals (db w)
  ∧ shelters (db (run a w req).2) = shelters (db w).
Proof. apply db_write_keeps, run_db_write. Qed.

(** X20: starting the process again on the database that a start left adds
    nothing: each table that [init_db] seeds is non-empty after the first
    call, so the second call finds no empty table, whatever the clock
    reads. *)
Theorem init_db_restart `{Env} (clock1 clock2 : Z) (s : store) :
  init_db clock2 (init_db clock1 s) = init_db clock1 s.
Proof.
  unfold init_db. cbn. by rewrite !seed_seed by done.
Qed.

(** ** The hotspot list *)

Section hotspot_facts.
Context `{Env}.

#[local] Instance heavier_total : Total heavier.
Proof. intros a b. unfold heavier. lia. Qed.

Lemma open_rows_Permutation (s : store) :
  merge_sort heavier (filter is_open (Sql.rows (incidents s)))
  ≡ₚ map_to_list (filter is_open (incidents s)).
Proof.
  rewrite merge_sort_Permutation, (rows_Permutation (incidents s)).
  symmetry. apply map_to_list_filter_Permutation.
Qed.

Lemma hotspots_length (s : store) :
  length (api_hotspots s) = size (filter is_open (incidents s)).
Proof.
  unfold api_hotspots.
  by rewrite length_fmap, open_rows_Permutation, length_map_to_list.
Qed.

Lemma hotspots_elem (s : store) (h : hotspot) :
  h ∈ api_hotspots s
  ↔ ∃ k inc, incidents s !! k = Some inc ∧ inc_status inc = "open"
             ∧ h = Hotspot (inc_lat inc) (inc_lng inc) (inc_severity inc).
Proof.
  unfold api_hotspots. rewrite list_elem_of_fmap. split.
  - intros ([k inc] & -> & Hin). rewrite open_rows_Permutation in Hin.
    apply elem_of_map_to_list, map_lookup_filter_Some in Hin as [Hk Hopen].
    by exists k, inc.
  - intros (k & inc & Hk & Hopen & ->). exists (k, inc). split; [done|].
    rewrite open_rows_Permutation.
    by apply elem_of_map_to_list, map_lookup_filter_Some.
Qed.

Lemma hotspots_sorted (s : store) :
  Sorted (λ a b, hs_w b ≤ hs_w a) (api_hotspots s).
Proof.
  unfold api_hotspots.
  apply (Sorted_fmap _ heavier); [by intros a b|].
  apply (Sorted_merge_sort heavier).
Qed.

End hotspot_facts.

(** X21: /api/hotspots lists exactly the incidents whose status is 'open',
    one entry for each, with the severity as the weight, the heaviest
    first. *)
Theorem api_hotspots_open_by_weight `{Env} (s : store) :
  (∀ h, h ∈ api_hotspots s
        ↔ ∃ k inc, incidents s !! k = Some inc ∧ inc_status inc = "open"
                   ∧ h = Hotspot (inc_lat inc) (inc_lng inc) (inc_severity inc))
  ∧ length (api_hotspots s) = size (filter is_open (incidents s))
  ∧ Sorted (λ a b, hs_w b ≤ hs_w a) (api_hotspots s).
Proof.
  split; [apply hotspots_elem|]. split; [apply hotspots_length|apply hotspots_sorted].
Qed.

(** X22: a report that is accepted adds one entry to the hotspot list. *)
Theorem report_adds_hotspot `{Env} (w : world) (req : request) msg :
  (report_incident w req).1 = Render "report_incident" (Some msg) →
  length (api_hotspots (db (report_incident w req).2))
  = S (length (api_hotspots (db w))).
Proof.
  rewrite !hotspots_length. unfold report_incident.
  repeat case_match; try discriminate. intros _. cbn.
  unfold Sql.insert_row. rewrite map_filter_insert_True by done.
  apply map_size_insert_None, map_lookup_filter_None. left. apply next_rowid_fresh.
Qed.

Lemma report_adds_hotspot_witness :
  length (@api_hotspots Demo.env
            (@db Demo.env (@report_incident Demo.env Demo.world0 DemoReport.well_formed).2))
  = S (length (@api_hotspots Demo.env (@db Demo.env Demo.world0))).
Proof.
  exact (@report_adds_hotspot Demo.env Demo.world0 DemoReport.well_formed
           ("success", "Incident reported successfully!") eq_refl).
Defined.

(** X23: an assignment takes the incident off the hotspot list when it was
    open, and leaves the list as long as it was otherwise. *)
Theorem assign_takes_hotspot `{Env} (w : world) (req : request) i inc v vol :
  method req = POST →
  Sql.by_text_id (form_get req "incident_id") (incidents (db w)) = Some (i, inc) →
  Sql.by_text_id (form_get req "volunteer_id") (volunteers (db w)) = Some (v, vol) →
  length (api_hotspots (db (assign_tasks w req).2))
  = (length (api_hotspots (db w))
     - (if decide (inc_status inc = "open") then 1 else 0))%nat.
Proof.
  intros Hm Hi Hv. rewrite !hotspots_length.
  unfold assign_tasks. rewrite Hm, Hi, Hv. cbn [snd db].
  apply by_text_id_Some in Hi as (_ & _ & _ & Hi). cbn.
  rewrite (alter_lookup_Some _ _ _ _ Hi).
  rewrite map_filter_insert_False by (unfold is_open; cbn; discriminate).
  rewrite map_filter_delete. case_decide as Hopen.
  - rewrite map_size_delete_Some; [lia|].
    exists inc. by apply map_lookup_filter_Some.
  - rewrite delete_id; [lia|].
    apply map_lookup_filter_None. right. intros inc'. rewrite Hi.
    by intros [= <-].
Qed.

Lemma assign_takes_hotspot_witness :
  length (@api_hotspots Demo.env
            (@db Demo.env
               (@assign_tasks Demo.env Demo.world0
                  (Demo.post (Some Demo.admin)
                     [("incident_id", "1"); ("volunteer_id", "3")])).2))
  = (length (@api_hotspots Demo.env (@db Demo.env Demo.world0)) - 1)%nat.
Proof.
  exact (@assign_takes_hotspot Demo.env Demo.world0
           (Demo.post (Some Demo.admin) [("incident_id", "1"); ("volunteer_id", "3")])
           1 (@Incident Demo.env (Some "Debris Removal") 4 (Some (Demo.Num 2862)) (Some (Demo.Num 7722)) "open" 0)
           3 (@Volunteer Demo.env "Kabir" (Some "+919000000013") (Demo.Num 3032) (Demo.Num 7803) 1)
           eq_refl eq_refl eq_refl).
Defined.

(** ** The task list of a volunteer *)

Section task_list_facts.
Context `{Env}.

Lemma volunteer_task_list_elem (uid : Z) (s : store) k t inc :
  (k, t, inc) ∈ volunteer_task_list uid s
  ↔ tasks s !! k = Some t ∧ volunteer_id t = uid
    ∧ incidents s !! incident_id t = Some inc.
Proof.
  unfold volunteer_task_list. rewrite list_elem_of_omap. split.
  - intros ([k' t'] & Hin & Hrow).
    rewrite merge_sort_Permutation in Hin.
    apply list_elem_of_filter in Hin as [Hown Hin].
    rewrite (rows_Permutation (tasks s)) in Hin.
    apply elem_of_map_to_list in Hin. cbn in *.
    destruct (incidents s !! incident_id t') as [inc'|] eqn:Hinc; [|done].
    cbn in Hrow. by injection Hrow as -> -> ->.
  - intros (Hk & Hown & Hinc). exists (k, t). split.
    + rewrite merge_sort_Permutation. apply list_elem_of_filter. split; [done|].
      rewrite (rows_Permutation (tasks s)). by apply elem_of_map_to_list.
    + cbn. by rewrite Hinc.
Qed.

End task_list_facts.

(** X24: after an assignment the new task is on the task list of the session
    user whose id in [users] is the id of the volunteer in [volunteers], with
    the incident in status 'in_progress': the list is selected by
    [volunteer_id = session user id]. *)
Theorem assigned_task_is_listed `{Env} (w : world) (req : request) i inc v vol :
  method req = POST →
  Sql.by_text_id (form_get req "incident_id") (incidents (db w)) = Some (i, inc) →
  Sql.by_text_id (form_get req "volunteer_id") (volunteers (db w)) = Some (v, vol) →
  (Sql.next_rowid (tasks (db w)),
   Task i v None (Some "assigned") (strftime_seconds (clock req)),
   set_inc_status "in_progress" inc)
  ∈ volunteer_task_list v (db (assign_tasks w req).2).
Proof.
  intros Hm Hi Hv. apply volunteer_task_list_elem.
  unfold assign_tasks. rewrite Hm, Hi, Hv. cbn.
  apply by_text_id_Some in Hi as (_ & _ & _ & Hi).
  split; [|split; [done|]].
  - unfold Sql.insert_row. by rewrite lookup_insert_eq.
  - by rewrite lookup_alter_eq, Hi.
Qed.

Lemma assigned_task_is_listed_witness :
  (1, Task 1 3 None (Some "assigned") 5,
   @Incident Demo.env (Some "Debris Removal") 4 (Some (Demo.Num 2862)) (Some (Demo.Num 7722)) "in_progress" 0)
  ∈ @volunteer_task_list Demo.env (su_id Demo.volunteer1)
      (@db Demo.env
         (@assign_tasks Demo.env Demo.world0
            (Demo.post (Some Demo.admin)
               [("incident_id", "1"); ("volunteer_id", "3")])).2).
Proof.
  exact (@assigned_task_is_listed Demo.env Demo.world0
           (Demo.post (Some Demo.admin) [("incident_id", "1"); ("volunteer_id", "3")])
           1 (@Incident Demo.env (Some "Debris Removal") 4 (Some (Demo.Num 2862)) (Some (Demo.Num 7722)) "open" 0)
           3 (@Volunteer Demo.env "Kabir" (Some "+919000000013") (Demo.Num 3032) (Demo.Num 7803) 1)
           eq_refl eq_refl eq_refl).
Defined.

(** X25: with a Twilio client and a WhatsApp sender, an assignment of an
    incident that has a lat and a lng makes one provider call when the phone
    of the volunteer is neither NULL nor '', a WhatsApp message to that phone
    whose text is built from the incident row as it was read before the
    update, and none otherwise.  For an incident whose lat or lng is NULL no
    call is made at all (the f-string of the text raises under [try]), and the
    request ends in an unhandled TypeError: the task is committed, the
    incident is in progress and the page cannot list it. *)
Theorem assign_tasks_alerts_volunteer `{Env} (w : world) (req : request) i inc v vol :
  twilio_client = true →
  Py.truthy TWILIO_WHATSAPP_FROM = true →
  method req = POST →
  Sql.by_text_id (form_get req "incident_id") (incidents (db w)) = Some (i, inc) →
  Sql.by_text_id (form_get req "volunteer_id") (volunteers (db w)) = Some (v, vol) →
  (∀ text, alert_msg (form_get req "incident_id") inc = Some text →
     outbox (assign_tasks w req).2
     = outbox w
       ++ (if decide (has_phone vol) then [whatsapp_call text (phone_of vol)] else []))
  ∧ (inc_lat inc = None ∨ inc_lng inc = None →
     outbox (assign_tasks w req).2 = outbox w
     ∧ (assign_tasks w req).1 = Unhandled Py.TypeError).
Proof.
  intros Hc Hfrom Hm Hi Hv.
  unfold assign_tasks. rewrite Hm, Hi, Hv. cbn [fst snd outbox].
  split.
  - intros text Htext. rewrite Htext.
    destruct (decide (has_phone vol)) as [Hphone|Hphone];
      unfold has_phone in Hphone; unfold phone_of;
      destruct (vol_phone vol) as [phone|]; cbn; rewrite ?app_nil_r; try done.
    + apply truthy_spec in Hphone. rewrite Hc, Hphone. cbn.
      by apply send_sms_alert_whatsapp.
    + rewrite <- truthy_spec in Hphone. apply not_true_is_false in Hphone.
      by rewrite Hphone, andb_false_r.
  - intros Hnull.
    assert (Htext : alert_msg (form_get req "incident_id") inc = None).
    { unfold alert_msg. by destruct Hnull as [-> | ->]; [|destruct (inc_lat inc)]. }
    rewrite Htext. split.
    { destruct (vol_phone vol) as [phone|]; [|done]. by destruct (_ && _). }
    match goal with
    | |- render_incidents ?t ?m ?l = _ =>
        destruct (render_incidents_cases t m l) as [Hpage|Hpage]; [|done]
    end.
    exfalso. apply by_text_id_Some in Hi as (_ & _ & _ & Hi).
    pose proof (proj1 (assign_page_Render _ _) Hpage) as Hall.
    destruct (Hall i (set_inc_status "in_progress" inc)) as [[lat Hlat] [lng Hlng]].
    + cbn. by rewrite lookup_alter_eq, Hi.
    + by right.
    + cbn in Hlat, Hlng. destruct Hnull; congruence.
Qed.

Lemma assign_tasks_alerts_volunteer_witness :
  @outbox Demo.env
    (@assign_tasks Demo.env Demo.world0
       (Demo.post (Some Demo.admin) [("incident_id", "1"); ("volunteer_id", "3")])).2
  = [Sms "New Task Assigned! Incident ID: 1. Type: Debris Removal. Location: 2862, 7722. Please check the app for details."
         "whatsapp:+14155238886" "whatsapp:+919000000013"]
  ∧ @outbox Demo.env (@assign_tasks Demo.env DemoReport.world_nan DemoReport.assign_nan).2
    = []
  ∧ (@assign_tasks Demo.env DemoReport.world_nan DemoReport.assign_nan).1
    = Unhandled Py.TypeError.
Proof.
  split.
  - destruct (@assign_tasks_alerts_volunteer Demo.env Demo.world0
                (Demo.post (Some Demo.admin) [("incident_id", "1"); ("volunteer_id", "3")])
                1 (@Incident Demo.env (Some "Debris Removal") 4
                     (Some (Demo.Num 2862)) (Some (Demo.Num 7722)) "open" 0)
                3 (@Volunteer Demo.env "Kabir" (Some "+919000000013")
                     (Demo.Num 3032) (Demo.Num 7803) 1)
                eq_refl eq_refl eq_refl eq_refl eq_refl) as [Hcall _].
    exact (Hcall _ eq_refl).
  - destruct (@assign_tasks_alerts_volunteer Demo.env DemoReport.world_nan
                DemoReport.assign_nan
                6 (@Incident Demo.env (Some "Flood") 4 None (Some (Demo.Num 2)) "open" 5)
                2 (@Volunteer Demo.env "Diya" (Some "+919000000012")
                     (Demo.Num 2685) (Demo.Num 8095) 1)
                eq_refl eq_refl eq_refl eq_refl eq_refl) as [_ Hnull].
    exact (Hnull (or_introl eq_refl)).
Defined.

(** X27: a report that is accepted with a lat or a lng that [float] reads as
    a NaN leaves an open incident without that coordinate, and the assignment
    page cannot be rendered after it: a GET of /assign_tasks ends in an
    unhandled TypeError and changes nothing. *)
Theorem nan_report_breaks_assign_page `{Env} (w w' : world) (req req' : request) msg x :
  report_incident w req = (Render "report_incident" (Some msg), w') →
  Py.float (form_get req "lat") = inr x ∨ Py.float (form_get req "lng") = inr x →
  float_isnan x = true →
  method req' = GET →
  assign_tasks w' req' = (Unhandled Py.TypeError, w').
Proof.
  unfold report_incident. intros Hrun Hx Hnan Hget.
  destruct (method req); [done|].
  destruct (Py.int _) as [?|severity]; [done|].
  destruct (Py.float (form_get req "lat")) as [?|lat] eqn:Hlat; [done|].
  destruct (Py.float (form_get req "lng")) as [?|lng] eqn:Hlng; [done|].
  destruct (Sql.fits_int64 severity); [|done]. cbn in Hrun.
  injection Hrun as _ <-.
  unfold assign_tasks. rewrite Hget. f_equal.
  match goal with
  | |- render_incidents ?t ?m ?l = _ =>
      destruct (render_incidents_cases t m l) as [Hpage|Hpage]; [|done]
  end.
  exfalso. pose proof (proj1 (assign_page_Render _ _) Hpage) as Hall.
  destruct (Hall (Sql.next_rowid (incidents (db w)))
              (Incident (form_get req "type") severity (Sql.real lat) (Sql.real lng)
                        "open" (strftime_seconds (clock req))))
    as [[la Hla] [ln Hln]].
  - cbn. unfold Sql.insert_row. by rewrite lookup_insert_eq.
  - by left.
  - cbn in Hla, Hln. unfold Sql.real in Hla, Hln.
    destruct Hx as [[= <-]|[= <-]]; by rewrite Hnan in *.
Qed.

Lemma nan_report_breaks_assign_page_witness :
  @assign_tasks Demo.env DemoReport.world_nan DemoSession.as_admin
  = (Unhandled Py.TypeError, DemoReport.world_nan).
Proof.
  exact (@nan_report_breaks_assign_page Demo.env Demo.world0 DemoReport.world_nan
           DemoReport.without_lat DemoSession.as_admin
           ("success", "Incident reported successfully!") Demo.NaN
           eq_refl (or_introl eq_refl) eq_refl eq_refl).
Defined.
